(** * beach-time: the tide engine of [TideService]

    A shallow embedding of [src/src/App.tsx] (class [TideService]): the
    signal synthesizer [calculateTideHeight], the sampler [getTideData],
    the smoother [smoothData], the extremum detector [findExtremes], the
    risk classifier [isDangerousTide] and the recommendation generator
    [getBestFridayVisitTimes].

    Conventions of the embedding.
    - Instants ([time] fields, [Date] values) are integers of milliseconds,
      modelled in [Z]; the program only adds and subtracts them.
    - Heights are JavaScript numbers.  The engine is written once, over an
      interface [JsNumber] of the operations the code applies to heights,
      and run at two instances: IEEE 754 binary64 ([float], what the
      program computes with, executable) and the real numbers ([R], what
      the formulas mean; it alone has a cosine).
    - An array read [a[i]] yields [undefined] out of range, and the field
      access that follows raises [TypeError]: reads are [option]-valued
      and the functions that index an array live in the [option] monad,
      [None] being the raised exception.
    - [Math.random], [Date.now], the process time zone and the reference
      epoch are inputs of the model ([Runtime]). *)

From Stdlib Require Import ZArith Reals Lra Floats Uint63.
From stdpp Require Import base tactics option list list_numbers strings sorting relations gmap.
From Equations Require Import Equations.

Local Open Scope Z_scope.

(** ** JavaScript numbers *)

Class JsNumber (num : Type) : Type := {
  of_Z : Z → num;                 (* an integer-valued number *)
  add : num → num → num;          (* a + b *)
  sub : num → num → num;          (* a - b *)
  mul : num → num → num;          (* a * b *)
  div : num → num → num;          (* a / b *)
  Math_abs : num → num;
  ltb : num → num → bool;         (* a < b *)
  leb : num → num → bool          (* a <= b *)
}.

(** [Math.cos] and [Math.PI], for the number types that have them. *)
Class JsMath (num : Type) : Type := {
  Math_cos : num → num;
  Math_PI : num
}.

(** The decimal literal [m * 10^-k]: a literal denotes the number nearest
    to its decimal value, which is the correctly rounded quotient of the
    two integers when both are exact. *)
Definition decimal {num} `{JsNumber num} (m : Z) (k : nat) : num :=
  div (of_Z m) (of_Z (10 ^ Z.of_nat k)).

(** binary64.  Integers up to 2^63 convert through the primitive
    conversion, which rounds to nearest (exact below 2^53). *)
Definition float_of_Z (z : Z) : float :=
  if bool_decide (z < 0)
  then PrimFloat.opp (PrimFloat.of_uint63 (Uint63.of_Z (- z)))
  else PrimFloat.of_uint63 (Uint63.of_Z z).

#[export] Instance Float64 : JsNumber float := {|
  of_Z := float_of_Z;
  add := PrimFloat.add;
  sub := PrimFloat.sub;
  mul := PrimFloat.mul;
  div := PrimFloat.div;
  Math_abs := PrimFloat.abs;
  ltb := PrimFloat.ltb;
  leb := PrimFloat.leb
|}.

(** Real numbers: exact arithmetic, with the cosine. The program computes
    in binary64; this instance serves where a statement needs [cos] and
    to instantiate theorems that hold for every number type. *)
#[export] Instance Real : JsNumber R := {|
  of_Z := IZR;
  add := Rplus;
  sub := Rminus;
  mul := Rmult;
  div := Rdiv;
  Math_abs := Rabs;
  ltb := λ a b, if Rlt_dec a b then true else false;
  leb := λ a b, if Rle_dec a b then true else false
|}.

#[export] Instance RealMath : JsMath R := {|
  Math_cos := cos;
  Math_PI := PI
|}.

(** ** Arrays and loops *)

(** The result of code that may raise: [None] is the exception. *)
Abbreviation js := option.

(** [a[i]] followed by a field access. *)
Definition get {A} (a : list A) (i : Z) : js A :=
  if bool_decide (0 ≤ i) then a !! Z.to_nat i else None.

(** The indices of [for (let j = lo; j <= hi; j++)]. *)
Definition range (lo hi : Z) : list Z := seqZ lo (hi - lo + 1).

(** A loop body run over the indices in order, threading the state. *)
Fixpoint foldlM {S I} (body : S → I → js S) (s : S) (l : list I) : js S :=
  match l with
  | [] => Some s
  | i :: l' => s' ← body s i; foldlM body s' l'
  end.

(** ** Data model *)

Inductive TideType := high | low.

#[export] Instance TideType_eq_dec : EqDecision TideType.
Proof. solve_decision. Defined.

Section Engine.
Context {num : Type} `{JsNumber num}.

Record TidePoint := mkPoint { pt_time : Z; pt_height : num }.

Record TideExtreme := mkExtreme { time : Z; height : num; type : TideType }.

Record HarmonicConstituent := mkConstituent {
  name : string; speed : num; amplitude : num; phase : num
}.

Record LocationConfig := mkLocation {
  loc_name : string; latitude : num; longitude : num;
  timezone : option string; country : option string; region : option string
}.

(** ** smoothData *)

Definition smoothData (points : list TidePoint) (windowSize : Z)
  : js (list TidePoint) :=
  let len := Z.of_nat (length points) in
  mapM (λ i,
    let start := Z.max 0 (i - windowSize / 2) in
    let end_ := Z.min (len - 1) (i + windowSize / 2) in
    '(sum, count) ← foldlM (λ '(sum, count) j,
                       pj ← get points j;
                       Some (add sum (pt_height pj), add count (of_Z 1)))
                     (of_Z 0, of_Z 0) (range start end_);
    pi ← get points i;
    Some (mkPoint (pt_time pi) (div sum count)))
  (range 0 (len - 1)).

(** ** findExtremes *)

(** The inner loop of the candidate scan: is [current] strictly above
    (isHigh) or strictly below (isLow) every other point of the window? *)
Definition scanWindow (smoothedPoints : list TidePoint) (i windowSize : Z)
    (current : TidePoint) : js (bool * bool) :=
  foldlM (λ '(isHigh, isLow) j,
    if bool_decide (j ≠ i) then
      sj ← get smoothedPoints j;
      let isHigh := if leb (pt_height current) (pt_height sj) then false else isHigh in
      let isLow := if leb (pt_height sj) (pt_height current) then false else isLow in
      Some (isHigh, isLow)
    else Some (isHigh, isLow))
  (true, true) (range (i - windowSize) (i + windowSize)).

(** The candidate scan, with [windowSize] points on each side. *)
Definition scanCandidates (smoothedPoints : list TidePoint) (windowSize : Z)
  : js (list TideExtreme) :=
  foldlM (λ candidates i,
    current ← get smoothedPoints i;
    '(isHigh, isLow) ← scanWindow smoothedPoints i windowSize current;
    Some (if isHigh && negb isLow then
            candidates ++ [mkExtreme (pt_time current) (pt_height current) high]
          else if isLow && negb isHigh then
            candidates ++ [mkExtreme (pt_time current) (pt_height current) low]
          else candidates))
  [] (range windowSize (Z.of_nat (length smoothedPoints) - windowSize - 1)).

Definition minTimeBetweenExtremes : Z := 4 * 60 * 60 * 1000.
Definition minHeightDifference : num := decimal 1 1.

Definition isMoreExtreme (candidate lastExtreme : TideExtreme) : bool :=
  (bool_decide (type candidate = high) && ltb (height lastExtreme) (height candidate))
  || (bool_decide (type candidate = low) && ltb (height candidate) (height lastExtreme)).

(** One iteration of the filter loop, on the pair of the [extremes] array
    and the variable [lastExtreme]. *)
Definition mergeStep (st : list TideExtreme * option TideExtreme)
    (candidate : TideExtreme) : list TideExtreme * option TideExtreme :=
  let '(extremes, lastExtreme) := st in
  match lastExtreme with
  | None => (extremes ++ [candidate], Some candidate)
  | Some last =>
    let timeDiff := time candidate - time last in
    let heightDiff := Math_abs (sub (height candidate) (height last)) in
    if bool_decide (minTimeBetweenExtremes ≤ timeDiff) && leb minHeightDifference heightDiff then
      if bool_decide (type candidate ≠ type last) then
        (extremes ++ [candidate], Some candidate)
      else if isMoreExtreme candidate last then
        (<[(length extremes - 1)%nat := candidate]> extremes, Some candidate)
      else st
    else st
  end.

Definition filterCandidates (candidates : list TideExtreme) : list TideExtreme :=
  fst (fold_left mergeStep candidates ([], None)).

Definition findExtremes (points : list TidePoint) : js (list TideExtreme) :=
  if bool_decide (Z.of_nat (length points) < 10) then Some [] else
  smoothedPoints ← smoothData points 3;
  candidates ← scanCandidates smoothedPoints 6;
  Some (filterCandidates candidates).

(** ** isDangerousTide *)

(** [[...a].sort((a, b) => a.time - b.time)]: the sort of the language is
    stable, so its result is the one of this insertion sort, which puts an
    element before the elements of the same [time] that followed it. *)
Fixpoint insertByTime (e : TideExtreme) (l : list TideExtreme) : list TideExtreme :=
  match l with
  | [] => [e]
  | x :: l' => if bool_decide (time e ≤ time x) then e :: x :: l'
               else x :: insertByTime e l'
  end.

Definition sortByTime (l : list TideExtreme) : list TideExtreme :=
  foldr insertByTime [] l.

Definition highTideThreshold : num := decimal 85 2.

(** The test of the loop body on [sortedExtremes[i-1]] and [sortedExtremes[i]]. *)
Definition rapidSwing (prev cur : TideExtreme) : bool :=
  let timeDiff := time cur - time prev in
  let heightDiff := Math_abs (sub (height cur) (height prev)) in
  ltb (decimal 4 1) heightDiff && bool_decide (timeDiff < 14400000).

(** The loop returns [true] at the first qualifying pair: the state is
    whether it has returned. *)
Definition isDangerousTide (h : num) (extremes : list TideExtreme) : js bool :=
  if ltb highTideThreshold h then Some true else
  if bool_decide (2 ≤ Z.of_nat (length extremes)) then
    let sortedExtremes := sortByTime extremes in
    foldlM (λ (returned : bool) i,
      if returned then Some true else
      cur ← get sortedExtremes i;
      prev ← get sortedExtremes (i - 1);
      Some (rapidSwing prev cur))
    false (range 1 (Z.of_nat (length sortedExtremes) - 1))
  else Some false.

(** ** The environment of a run *)

Record Runtime := mkRuntime {
  Date_now : Z;             (* [new Date().getTime()] *)
  REFERENCE_TIME : Z;       (* [new Date(2025, 0, 1).getTime()], local midnight *)
  Math_random : nat → num;  (* the successive results of [Math.random()] *)
  LocalTZA : Z → Z          (* offset of local time at an instant, in ms *)
}.

(** ** Dates *)

(** A [Date] holds a time value, or NaN ([None]) when the argument of the
    constructor is out of the range of dates. *)
Definition Date := option Z.

Definition newDate (t : Z) : Date :=
  if bool_decide (Z.abs t ≤ 8640000000000000) then Some t else None.

Definition msPerDay : Z := 86400000.
Definition msPerHour : Z := 3600000.

Definition LocalTime (rt : Runtime) (t : Z) : Z := t + LocalTZA rt t.

(** [getDay()]: 0 is Sunday; day 0 of the epoch was a Thursday. *)
Definition getDay (rt : Runtime) (d : Date) : option Z :=
  t ← d; Some ((LocalTime rt t `div` msPerDay + 4) `mod` 7).

Definition getHours (rt : Runtime) (d : Date) : option Z :=
  t ← d; Some ((LocalTime rt t `div` msPerHour) `mod` 24).

(** A comparison of a number that may be NaN ([None]): false on NaN. *)
Definition nan_test (P : Z → bool) (x : option Z) : bool :=
  match x with Some v => P v | None => false end.

(** ** getBestFridayVisitTimes *)

Definition reason_beach : string :=
  "Low tide during daylight hours - ideal for beach activities".
Definition reason_swimming : string :=
  "Gradually rising tide - good for swimming".

Record Recommendation := mkRec { rec_time : Date; reason : string }.

Definition isFriday (rt : Runtime) (extreme : TideExtreme) : bool :=
  nan_test (λ d, bool_decide (d = 5)) (getDay rt (newDate (time extreme))).

Definition getBestFridayVisitTimes (rt : Runtime) (extremes : list TideExtreme)
  : js (list Recommendation) :=
  let fridayExtremes := filter (λ e, isFriday rt e = true) extremes in
  let sortedExtremes := sortByTime fridayExtremes in
  foldlM (λ recommendations i,
    extreme ← get sortedExtremes i;
    let time_ := newDate (time extreme) in
    let recommendations :=
      if bool_decide (type extreme = low)
         && nan_test (λ h, bool_decide (6 ≤ h)) (getHours rt time_)
         && nan_test (λ h, bool_decide (h ≤ 18)) (getHours rt time_)
      then recommendations ++ [mkRec time_ reason_beach]
      else recommendations in
    if bool_decide (type extreme = low) then
      let swimmingTime := newDate (time extreme + 3600000) in
      if nan_test (λ h, bool_decide (7 ≤ h)) (getHours rt swimmingTime)
         && nan_test (λ h, bool_decide (h ≤ 17)) (getHours rt swimmingTime)
      then Some (recommendations ++ [mkRec swimmingTime reason_swimming])
      else Some recommendations
    else Some recommendations)
  [] (range 0 (Z.of_nat (length sortedExtremes) - 1)).

(** ** calculateTideHeight *)

Context `{JsMath num}.

Definition getDefaultConstituents : list HarmonicConstituent := [
  mkConstituent "M2" (decimal 28984 3) (decimal 28 2) (of_Z 220);
  mkConstituent "S2" (decimal 30000 3) (decimal 12 2) (of_Z 250);
  mkConstituent "N2" (decimal 28440 3) (decimal 6 2) (of_Z 200);
  mkConstituent "K1" (decimal 15041 3) (decimal 8 2) (of_Z 150);
  mkConstituent "O1" (decimal 13943 3) (decimal 5 2) (of_Z 130);
  mkConstituent "Z0" (decimal 0 3) (decimal 50 2) (of_Z 0)
].

Definition hoursElapsed (rt : Runtime) (t : Z) : num :=
  div (of_Z (t - REFERENCE_TIME rt)) (of_Z (60 * 60 * 1000)).

(** One iteration of the loop over the constituents. *)
Definition addConstituent (hours : num) (h : num) (constituent : HarmonicConstituent) : num :=
  if bool_decide (name constituent = "Z0") then add h (amplitude constituent)
  else
    let angle := mul (add (mul (speed constituent) hours) (phase constituent))
                     (div Math_PI (of_Z 180)) in
    add h (mul (amplitude constituent) (Math_cos angle)).

(** The height before the random variation is added. *)
Definition sumConstituents (rt : Runtime) (t : Z) (constituents : list HarmonicConstituent) : num :=
  fold_left (addConstituent (hoursElapsed rt t)) constituents (of_Z 0).

(** [random] is the result of the call of [Math.random()]. *)
Definition calculateTideHeight (rt : Runtime) (t : Z)
    (constituents : list HarmonicConstituent) (random : num) : num :=
  let h := sumConstituents rt t constituents in
  let randomVariation := sub (mul random (decimal 1 1)) (decimal 5 2) in
  add h randomVariation.

(** ** getTideData *)

Definition samplingInterval : Z := 30 * 60 * 1000.

(** [for (let time = startTime; time <= endTime; time += samplingInterval)],
    from the iteration at [time]; [k] counts the calls of [Math.random]. *)
Equations? samplePoints (rt : Runtime) (constituents : list HarmonicConstituent)
    (endTime : Z) (t : Z) (k : nat) : list TidePoint
    by wf (Z.to_nat (endTime - t + 1)) lt :=
  samplePoints rt constituents endTime t k with decide (t ≤ endTime) => {
    | left _ :=
        mkPoint t (calculateTideHeight rt t constituents (Math_random rt k))
        :: samplePoints rt constituents endTime (t + samplingInterval) (S k);
    | right _ := [] }.
Proof. unfold samplingInterval. lia. Qed.

Record TideData := mkTideData { points : list TidePoint; extremes : list TideExtreme }.

Definition getTideData (rt : Runtime) (location : LocationConfig) (days : Z)
    (constituents : option (list HarmonicConstituent)) : js TideData :=
  let startTime := Date_now rt in
  let endTime := startTime + days * 86400000 in
  let activeConstituents := default getDefaultConstituents constituents in
  let points := samplePoints rt activeConstituents endTime startTime 0 in
  extremes ← findExtremes points;
  Some (mkTideData points extremes).

End Engine.

Arguments TidePoint : clear implicits.
Arguments TideExtreme : clear implicits.
Arguments HarmonicConstituent : clear implicits.
Arguments LocationConfig : clear implicits.
Arguments Runtime : clear implicits.
Arguments TideData : clear implicits.

(** ** Vocabulary of the properties *)

Section Vocabulary.
Context {num : Type} `{JsNumber num}.

(** The samples at the indices [lo .. hi] of an array (all in range). *)
Definition window {A} (a : list A) (lo hi : Z) : list A :=
  take (Z.to_nat (hi - lo + 1)) (drop (Z.to_nat lo) a).

(** The window the smoother averages around index [i]: [windowSize / 2]
    (rounded down) samples on each side, cut at the ends of the array. *)
Definition clampedWindow (points : list (TidePoint num)) (windowSize : Z) (i : Z)
  : list (TidePoint num) :=
  window points (Z.max 0 (i - windowSize / 2))
                (Z.min (Z.of_nat (length points) - 1) (i + windowSize / 2)).

(** The arithmetic mean of a list of numbers, as a number: the sum of the
    elements from the left, over the count of the elements. *)
Definition arithmeticMean (l : list num) : num :=
  div (fold_left add l (of_Z 0)) (fold_left (λ c _, add c (of_Z 1)) l (of_Z 0)).

(** What a constituent adds to the accumulated height at instant [t]. *)
Definition contribution `{JsMath num} (rt : Runtime num) (t : Z)
    (c : HarmonicConstituent num) : num :=
  if bool_decide (name c = "Z0") then amplitude c
  else mul (amplitude c)
           (Math_cos (mul (add (mul (speed c) (hoursElapsed rt t)) (phase c))
                          (div Math_PI (of_Z 180)))).

(** The instants of the sampler: [startTime + i * 1,800,000] for
    [i = 0 .. n - 1]. *)
Definition sampleTimes (startTime : Z) (n : Z) : list Z :=
  (λ i, startTime + i * 1800000) <$> seqZ 0 n.

(** [a] and [b] are consecutive entries of [l]. *)
Definition adjacent {A} (l : list A) (a b : A) : Prop :=
  ∃ i : nat, l !! i = Some a ∧ l !! S i = Some b.

(** The test of the filter loop on a candidate [cur] against the last
    accepted entry [prev]: at least 4 hours later and at least 0.1 m away. *)
Definition gapOk (prev cur : TideExtreme num) : Prop :=
  minTimeBetweenExtremes ≤ time cur - time prev
  ∧ leb minHeightDifference (Math_abs (sub (height cur) (height prev))) = true.

(** [y] may take the place of [x] by the replace step of the filter loop:
    it passes the gap test against [x], has its kind and is more extreme. *)
Definition replaces (x y : TideExtreme num) : Prop :=
  gapOk x y ∧ type y = type x ∧ isMoreExtreme y x = true.

(** What the filter loop keeps true of two consecutive entries [a], [b]
    of the [extremes] array: [b0] is the entry that was appended after
    [a], and [b] stands in its place after zero or more replacements. *)
Definition pairOk (a b : TideExtreme num) : Prop :=
  minTimeBetweenExtremes ≤ time b - time a
  ∧ type a ≠ type b
  ∧ ∃ b0, gapOk a b0 ∧ rtc replaces b0 b.

(** The hour of day of a date ([getHours()]) lies between [lo] and [hi]. *)
Definition hourWithin (rt : Runtime num) (d : Date) (lo hi : Z) : Prop :=
  ∃ h, getHours rt d = Some h ∧ lo ≤ h ≤ hi.

(** The local time of day of an instant, in ms since local midnight, and
    the reading of a window [lo:00, hi:00] as an interval of clock times. *)
Definition timeOfDay (rt : Runtime num) (t : Z) : Z := LocalTime rt t `mod` msPerDay.

Definition inClockWindow (rt : Runtime num) (t : Z) (lo hi : Z) : Prop :=
  lo * msPerHour ≤ timeOfDay rt t ≤ hi * msPerHour.

(** What one iteration of the loop of getBestFridayVisitTimes appends. *)
Definition recommendationsOf (rt : Runtime num) (extreme : TideExtreme num)
  : list Recommendation :=
  (if bool_decide (type extreme = low)
      && nan_test (λ h, bool_decide (6 ≤ h)) (getHours rt (newDate (time extreme)))
      && nan_test (λ h, bool_decide (h ≤ 18)) (getHours rt (newDate (time extreme)))
   then [mkRec (newDate (time extreme)) reason_beach] else [])
  ++ (if bool_decide (type extreme = low)
         && nan_test (λ h, bool_decide (7 ≤ h)) (getHours rt (newDate (time extreme + 3600000)))
         && nan_test (λ h, bool_decide (h ≤ 17)) (getHours rt (newDate (time extreme + 3600000)))
      then [mkRec (newDate (time extreme + 3600000)) reason_swimming] else []).

(** The invariant of the filter loop on ([extremes], [lastExtreme]):
    [lastExtreme] is the last entry of the array, and every two consecutive
    entries satisfy [pairOk]. *)
Definition mergeInv (st : list (TideExtreme num) * option (TideExtreme num)) : Prop :=
  st.2 = last st.1 ∧ ∀ a b, adjacent st.1 a b → pairOk a b.

End Vocabulary.

(** ** Inputs of the examples *)

(** A series sampled every 30 minutes, heights in units of 0.0001 m: a
    dip to a low of 1 m, then two peaks of 0.75 m and 0.9375 m over a
    floor of 0.25 m. *)
Definition pathologicalSeries : list (TidePoint float) :=
  imap (λ i h, mkPoint (1735689600000 + Z.of_nat i * 1800000) (decimal h 4))
    [15000; 15000; 15000; 15000; 15000; 15000; 15000; 12500; 5000; 12500;
     15000; 15000; 15000; 15000; 15000; 15000; 2500; 2500; 2500; 2500;
     2500; 2500; 2500; 6250; 10000; 6250; 2500; 2500; 2500; 2500;
     2500; 2500; 2500; 2500; 2500; 2500; 2500; 2500; 2500; 6250;
     15625; 6250; 2500; 2500; 2500; 2500; 2500; 2500; 2500].

(** Five samples with a spike of 3 m in the middle. *)
Definition spikeSeries : list (TidePoint float) :=
  imap (λ i h, mkPoint (1735689600000 + Z.of_nat i * 1800000) (of_Z h)) [0; 0; 3; 0; 0].

(** A constituent of speed 0 that is not named Z0, and a run over the reals. *)
Definition stillConstituent : HarmonicConstituent R := mkConstituent "MSL" 0%R 1%R 180%R.
Definition realRun : Runtime R := mkRuntime 1735862400000 1735689600000 (λ _, 0%R) (λ _, 0).
Definition somewhere : LocationConfig R :=
  mkLocation "Beach" 2.0469%R 45.3182%R None (Some "Somalia") (Some "East Africa").

(** A run in the UTC time zone. *)
Definition utc : Runtime float := mkRuntime 0 0 (λ _, 0%float) (λ _, 0).

(** A low tide on Friday 3 January 2025 at 18:30 UTC. *)
Definition lowAtFriday1830 : TideExtreme float := mkExtreme 1735929000000 0.25%float low.

(** ** The components that use the engine

    [SafetyWarning] (getNextDangerousPeriod), [TideChart] (the index of an
    extreme marker), [TideTable] and [FridayRecommendations] (the grouping
    by calendar day) and the effect of [App] that loads the data. Only
    what they compute is modelled, not what they render. *)

(** [toLocaleDateString()] and
    [toLocaleTimeString([], { hour: '2-digit', minute: '2-digit' })] of the
    environment: they depend on its locale and time zone. *)
Record Locale := mkLocale {
  toLocaleDateString : Date → string;
  toLocaleTimeString : Date → string
}.

(** [array.findIndex(P)]: the first index whose element satisfies [P],
    or -1; [i] is the index of the head of [l]. *)
Fixpoint findIndexFrom {A} (P : A → bool) (l : list A) (i : Z) : Z :=
  match l with
  | [] => -1
  | x :: l' => if P x then i else findIndexFrom P l' (i + 1)
  end.

Definition findIndex {A} (P : A → bool) (l : list A) : Z := findIndexFrom P l 0.

Section Components.
Context {num : Type} `{JsNumber num}.

(** *** SafetyWarning *)

Record DangerousPeriod := mkPeriod {
  period_start : Date; period_end : Date; period_height : num
}.

(** [null] is the inner [None]. *)
Definition getNextDangerousPeriod (rt : Runtime num) (extremes : list (TideExtreme num))
  : js (option DangerousPeriod) :=
  let now := Date_now rt in
  let sortedExtremes := sortByTime extremes in
  let dangerousHighTides :=
    filter (λ extreme, type extreme = high
                       ∧ ltb (decimal 85 2) (height extreme) = true
                       ∧ now < time extreme) sortedExtremes in
  if bool_decide (0 < Z.of_nat (length dangerousHighTides)) then
    nextDangerous ← get dangerousHighTides 0;
    let dangerStart := newDate (time nextDangerous - 5400000) in
    let dangerEnd := newDate (time nextDangerous + 5400000) in
    Some (Some (mkPeriod dangerStart dangerEnd (height nextDangerous)))
  else Some None.

(** *** TideChart *)

(** The index of the sample at which the marker of an extreme is drawn;
    the marker is skipped when it is -1. *)
Definition pointIndex (points : list (TidePoint num)) (extreme : TideExtreme num) : Z :=
  findIndex (λ p, bool_decide (Z.abs (pt_time p - time extreme) < 1800000)) points.

(** *** TideTable *)

(** An entry of a group: the extreme, with [timeString] and [date]. *)
Record TableRow := mkRow {
  row_extreme : TideExtreme num; row_timeString : string; row_date : Date
}.

(** The [reduce] that groups the extremes by day. The accumulator is an
    object used as a map from date strings (none of which names a property
    of [Object.prototype]) to arrays. *)
Definition groupedByDay (lc : Locale) (extremes : list (TideExtreme num))
  : gmap string (list TableRow) :=
  fold_left (λ (acc : gmap string (list TableRow)) extreme,
    let date := newDate (time extreme) in
    let dateString := toLocaleDateString lc date in
    let acc := if acc !! dateString is Some _ then acc else <[dateString := []]> acc in
    <[dateString := default [] (acc !! dateString)
                    ++ [mkRow extreme (toLocaleTimeString lc date) date]]> acc)
  extremes ∅.

(** The header of a group: [new Date(dayExtremes[0].date).getDay() === 5]. *)
Definition dayIsFriday (rt : Runtime num) (dayExtremes : list TableRow) : js bool :=
  first ← get dayExtremes 0;
  Some (nan_test (λ d, bool_decide (d = 5)) (getDay rt (row_date first))).

(** *** FridayRecommendations *)

Record RecommendationRow := mkRecRow {
  row_rec : Recommendation; rec_timeString : string
}.

Definition groupedByDate (lc : Locale) (recommendations : list Recommendation)
  : gmap string (list RecommendationRow) :=
  fold_left (λ (acc : gmap string (list RecommendationRow)) rec,
    let dateString := toLocaleDateString lc (rec_time rec) in
    let acc := if acc !! dateString is Some _ then acc else <[dateString := []]> acc in
    <[dateString := default [] (acc !! dateString)
                    ++ [mkRecRow rec (toLocaleTimeString lc (rec_time rec))]]> acc)
  recommendations ∅.

(** [Object.keys(groupedByDate).length > 0], computed by the component
    from the extremes it is given. *)
Definition hasFridays (rt : Runtime num) (lc : Locale) (extremes : list (TideExtreme num))
  : js bool :=
  recommendations ← getBestFridayVisitTimes rt extremes;
  Some (bool_decide (0 < Z.of_nat (size (groupedByDate lc recommendations)))).

(** *** App *)

Context `{JsMath num}.

(** The state of [App] that the effect writes. *)
Record AppState := mkAppState {
  tidePoints : list (TidePoint num);
  tideExtremes : list (TideExtreme num);
  loading : bool;
  isDangerous : bool;
  currentHeight : num
}.

(** The body of the [try] block, on the state: [inl] is the state at a
    normal end, [inr] the state at the point where an exception was raised
    (the updates made before it stay). *)
Definition tryLoad (rt : Runtime num) (currentLocation : LocationConfig num)
    (daysToShow : Z) (st : AppState) : AppState + AppState :=
  match getTideData rt currentLocation daysToShow None with
  | None => inr st
  | Some data =>
    let st := mkAppState (points data) (tideExtremes st) (loading st)
                (isDangerous st) (currentHeight st) in
    let st := mkAppState (tidePoints st) (extremes data) (loading st)
                (isDangerous st) (currentHeight st) in
    if bool_decide (0 < Z.of_nat (length (points data))) then
      match get (points data) 0 with
      | None => inr st
      | Some current =>
        let st := mkAppState (tidePoints st) (tideExtremes st) (loading st)
                    (isDangerous st) (pt_height current) in
        match isDangerousTide (pt_height current) (extremes data) with
        | None => inr st
        | Some dangerous =>
          inl (mkAppState (tidePoints st) (tideExtremes st) (loading st)
                 dangerous (currentHeight st))
        end
      end
    else inl st
  end.

(** The effect run when [daysToShow] or [currentLocation] changes:
    [setLoading(true)], the [try] block, [catch] (which only logs) and
    [finally { setLoading(false) }]. *)
Definition loadEffect (rt : Runtime num) (currentLocation : LocationConfig num)
    (daysToShow : Z) (st : AppState) : AppState :=
  let st := mkAppState (tidePoints st) (tideExtremes st) true
              (isDangerous st) (currentHeight st) in
  let st := match tryLoad rt currentLocation daysToShow st with
            | inl st' => st'
            | inr st' => st'
            end in
  mkAppState (tidePoints st) (tideExtremes st) false (isDangerous st) (currentHeight st).

(** The content (banner, tabs) is rendered under this condition. *)
Definition contentShown (st : AppState) : bool :=
  bool_decide (0 < Z.of_nat (length (tidePoints st)))
  && bool_decide (0 < Z.of_nat (length (tideExtremes st)))
  && negb (loading st).

End Components.

Arguments DangerousPeriod : clear implicits.
Arguments TableRow : clear implicits.
Arguments AppState : clear implicits.

(** The smoothed height at index [i]: the mean over the window of 3. *)
Definition smoothedHeight {num} `{JsNumber num}
    (points : list (TidePoint num)) (i : Z) : num :=
  arithmeticMean (pt_height <$> clampedWindow points 3 i).

(** One step of the grouping [reduce], for any key and row functions. *)
Definition groupStep {A B} (key : A → string) (row : A → B)
    (acc : gmap string (list B)) (x : A) : gmap string (list B) :=
  let acc' := if acc !! key x is Some _ then acc else <[key x := []]> acc in
  <[key x := default [] (acc' !! key x) ++ [row x]]> acc'.

Section ComponentVocabulary.
Context {num : Type} `{JsNumber num}.

(** [c] is what the candidate scan pushes at index [i]: the smoothed point
    there, strictly above (high) or strictly below (low) every other point
    within [windowSize] of it. *)
Definition candidateAt (smoothedPoints : list (TidePoint num)) (windowSize i : Z)
    (c : TideExtreme num) : Prop :=
  ∃ current, get smoothedPoints i = Some current
    ∧ time c = pt_time current ∧ height c = pt_height current
    ∧ (type c = high → ∀ j sj, i - windowSize ≤ j ≤ i + windowSize → j ≠ i →
         get smoothedPoints j = Some sj →
         leb (pt_height current) (pt_height sj) = false)
    ∧ (type c = low → ∀ j sj, i - windowSize ≤ j ≤ i + windowSize → j ≠ i →
         get smoothedPoints j = Some sj →
         leb (pt_height sj) (pt_height current) = false).

(** A high tide above the threshold, later than now. *)
Definition dangerousHigh (rt : Runtime num) (e : TideExtreme num) : Prop :=
  type e = high ∧ ltb (decimal 85 2) (height e) = true ∧ Date_now rt < time e.

(** The date string and the row of an extreme in [TideTable]. *)
Definition dayKey (lc : Locale) (e : TideExtreme num) : string :=
  toLocaleDateString lc (newDate (time e)).

Definition tableRow (lc : Locale) (e : TideExtreme num) : TableRow num :=
  mkRow e (toLocaleTimeString lc (newDate (time e))) (newDate (time e)).

(** The date string and the row of a recommendation. *)
Definition recKey (lc : Locale) (r : Recommendation) : string :=
  toLocaleDateString lc (rec_time r).

Definition recRow (lc : Locale) (r : Recommendation) : RecommendationRow :=
  mkRecRow r (toLocaleTimeString lc (rec_time r)).

End ComponentVocabulary.

(** ** Arrays and loops: basic facts *)

Lemma get_of_nat {A} (a : list A) (i : nat) : get a (Z.of_nat i) = a !! i.
Proof.
  unfold get. rewrite bool_decide_eq_true_2 by lia. by rewrite Nat2Z.id.
Qed.

Lemma get_in_range {A} (a : list A) (i : Z) :
  0 ≤ i < Z.of_nat (length a) → is_Some (get a i).
Proof.
  intros Hi. unfold get. rewrite bool_decide_eq_true_2 by lia.
  apply lookup_lt_is_Some. lia.
Qed.

Lemma elem_of_range lo hi i : i ∈ range lo hi ↔ lo ≤ i ≤ hi.
Proof. unfold range. rewrite elem_of_seqZ. lia. Qed.

Lemma range_empty lo hi : hi < lo → range lo hi = [].
Proof.
  intros. unfold range, seqZ. replace (Z.to_nat (hi - lo + 1)) with 0%nat by lia. done.
Qed.

Lemma range_cons lo hi : lo ≤ hi → range lo hi = lo :: range (lo + 1) hi.
Proof.
  intros. unfold range. rewrite seqZ_cons by lia.
  f_equal. f_equal; lia.
Qed.

Lemma length_range lo hi : length (range lo hi) = Z.to_nat (hi - lo + 1).
Proof. unfold range. apply length_seqZ. Qed.

(** The loop rule: a body that succeeds and keeps [P] on every index of
    the list gives a loop that succeeds and ends in [P]. *)
Lemma foldlM_invariant {S I} (P : S → Prop) (body : S → I → js S) (l : list I) (s : S) :
  P s →
  (∀ s i, i ∈ l → P s → ∃ s', body s i = Some s' ∧ P s') →
  ∃ s', foldlM body s l = Some s' ∧ P s'.
Proof.
  revert s. induction l as [|i l IH]; intros s Hs Hbody; simpl.
  - eauto.
  - destruct (Hbody s i) as (s1 & -> & Hs1); [left | done |]. simpl.
    apply IH; [done |]. intros s2 j Hj. apply Hbody. by right.
Qed.

Lemma foldlM_snoc {S I} (body : S → I → js S) (l : list I) (i : I) (s : S) :
  foldlM body s (l ++ [i]) = (s' ← foldlM body s l; body s' i).
Proof.
  revert s. induction l as [|j l IH]; intros s; simpl.
  - by destruct (body s i).
  - destruct (body s j); simpl; [apply IH | done].
Qed.

Lemma adjacent_snoc {A} (l : list A) (x a b : A) :
  adjacent (l ++ [x]) a b ↔ adjacent l a b ∨ (last l = Some a ∧ b = x).
Proof.
  unfold adjacent. split.
  - intros (i & Ha & Hb). apply lookup_snoc_Some in Ha, Hb.
    destruct Hb as [[Hi Hb] | [Hi ->]].
    + left. exists i. split; [|done]. destruct Ha as [[_ Ha]|[? _]]; [done | lia].
    + right. split; [|done]. destruct Ha as [[_ Ha]|[? _]]; [| lia].
      rewrite last_lookup. by replace (pred (length l)) with i by lia.
  - intros [(i & Ha & Hb) | [Ha ->]].
    + exists i. rewrite !lookup_app_l; eauto using lookup_lt_Some.
    + rewrite last_lookup in Ha. assert (pred (length l) < length l)%nat
        by eauto using lookup_lt_Some.
      exists (pred (length l)). rewrite lookup_app_l by lia. split; [done |].
      replace (S (pred (length l))) with (length l) by lia.
      apply list_lookup_middle. done.
Qed.

(** ** The smoother *)

Section Smoother.
Context {num : Type} `{JsNumber num}.
Implicit Types (points smoothed : list (TidePoint num)).

Lemma window_empty {A} (a : list A) lo hi : hi < lo → window a lo hi = [].
Proof. intros. unfold window. by replace (Z.to_nat (hi - lo + 1)) with 0%nat by lia. Qed.

Lemma window_cons {A} (a : list A) lo hi x :
  0 ≤ lo ≤ hi → a !! Z.to_nat lo = Some x →
  window a lo hi = x :: window a (lo + 1) hi.
Proof.
  intros Hlo Hx. unfold window.
  replace (Z.to_nat (hi - lo + 1)) with (S (Z.to_nat (hi - (lo + 1) + 1))) by lia.
  rewrite (drop_S _ _ _ Hx). simpl.
  by replace (Z.to_nat (lo + 1)) with (S (Z.to_nat lo)) by lia.
Qed.

Lemma length_window {A} (a : list A) lo hi :
  0 ≤ lo → hi < Z.of_nat (length a) → length (window a lo hi) = Z.to_nat (hi - lo + 1).
Proof. intros. unfold window. rewrite length_take, length_drop. lia. Qed.

(** The summing loop reads exactly the samples of the window, in order. *)
Lemma sum_loop_window points lo hi (sc : num * num) :
  0 ≤ lo → hi < Z.of_nat (length points) →
  foldlM (λ '(sum, count) j,
            pj ← get points j;
            Some (add sum (pt_height pj), add count (of_Z 1))) sc (range lo hi)
  = Some (fold_left (λ '(sum, count) p, (add sum (pt_height p), add count (of_Z 1)))
                    (window points lo hi) sc).
Proof.
  intros Hlo Hhi. remember (Z.to_nat (hi - lo + 1)) as n eqn:Hn.
  revert lo sc Hlo Hn. induction n as [|n IH]; intros lo sc Hlo Hn.
  - rewrite range_empty, window_empty by lia. done.
  - destruct (get_in_range points lo) as [p Hp]; [lia |].
    rewrite range_cons by lia. destruct sc as [sum count]. cbn [foldlM].
    rewrite Hp. cbn [mbind option_bind].
    unfold get in Hp. rewrite bool_decide_eq_true_2 in Hp by lia.
    rewrite (window_cons _ _ _ p) by (done || lia). cbn [fold_left].
    apply IH; lia.
Qed.

Lemma fold_left_sum_count (l : list (TidePoint num)) (sum count : num) :
  fold_left (λ '(sum, count) p, (add sum (pt_height p), add count (of_Z 1))) l (sum, count)
  = (fold_left add (pt_height <$> l) sum,
     fold_left (λ c _, add c (of_Z 1)) (pt_height <$> l) count).
Proof. revert sum count. induction l as [|p l IH]; intros; simpl; [done | apply IH]. Qed.

(** What one iteration of the outer loop pushes. *)
Lemma smoothData_at points windowSize (i : nat) p :
  points !! i = Some p →
  (let len := Z.of_nat (length points) in
   let start := Z.max 0 (Z.of_nat i - windowSize / 2) in
   let end_ := Z.min (len - 1) (Z.of_nat i + windowSize / 2) in
   '(sum, count) ← foldlM (λ '(sum, count) j,
                      pj ← get points j;
                      Some (add sum (pt_height pj), add count (of_Z 1)))
                    (of_Z 0, of_Z 0) (range start end_);
   pi ← get points (Z.of_nat i);
   Some (mkPoint (pt_time pi) (div sum count)))
  = Some (mkPoint (pt_time p)
            (arithmeticMean (pt_height <$> clampedWindow points windowSize (Z.of_nat i)))).
Proof.
  intros Hp. cbv zeta. rewrite sum_loop_window by lia.
  rewrite fold_left_sum_count. cbn [mbind option_bind].
  rewrite get_of_nat, Hp. done.
Qed.

Lemma smoothData_Some points windowSize :
  smoothData points windowSize
  = Some (imap (λ i p, mkPoint (pt_time p)
            (arithmeticMean (pt_height <$> clampedWindow points windowSize (Z.of_nat i))))
          points).
Proof.
  unfold smoothData. apply mapM_Some, Forall2_same_length_lookup. split.
  - rewrite length_range, length_imap. lia.
  - intros k i q Hi Hq. unfold range in Hi. apply lookup_seqZ in Hi as [-> Hk].
    rewrite list_lookup_imap in Hq.
    destruct (points !! k) as [p|] eqn:Hp; [|done]. simplify_eq/=.
    rewrite Z.add_0_l. by apply smoothData_at.
Qed.

Lemma smoothData_length points windowSize smoothed :
  smoothData points windowSize = Some smoothed → length smoothed = length points.
Proof. rewrite smoothData_Some. intros [= <-]. apply length_imap. Qed.

End Smoother.

(** ** The extremum detector *)

Section Detector.
Context {num : Type} `{JsNumber num}.
Implicit Types (points smoothedPoints : list (TidePoint num)).
Implicit Types (candidates extremes : list (TideExtreme num)).

Lemma scanWindow_total smoothedPoints i windowSize current :
  0 ≤ i - windowSize → i + windowSize < Z.of_nat (length smoothedPoints) →
  is_Some (scanWindow smoothedPoints i windowSize current).
Proof.
  intros Hlo Hhi. unfold scanWindow.
  destruct (foldlM_invariant (λ _, True)
    (λ '(isHigh, isLow) j,
       if bool_decide (j ≠ i) then
         sj ← get smoothedPoints j;
         let isHigh := if leb (pt_height current) (pt_height sj) then false else isHigh in
         let isLow := if leb (pt_height sj) (pt_height current) then false else isLow in
         Some (isHigh, isLow)
       else Some (isHigh, isLow))
    (range (i - windowSize) (i + windowSize)) (true, true)) as (r & Hr & _); [done | | eauto].
  intros [isHigh isLow] j Hj%elem_of_range _.
  case_bool_decide; [|eauto].
  destruct (get_in_range smoothedPoints j) as [sj ->]; [lia |]. simpl. eauto.
Qed.

Lemma scanCandidates_total smoothedPoints windowSize :
  0 ≤ windowSize → is_Some (scanCandidates smoothedPoints windowSize).
Proof.
  intros Hw. unfold scanCandidates.
  match goal with |- is_Some (foldlM ?body ?s ?l) =>
    destruct (foldlM_invariant (λ _, True) body l s) as (r & Hr & _); [done | | eauto] end.
  intros candidates i Hi%elem_of_range _.
  destruct (get_in_range smoothedPoints i) as [current ->]; [lia |].
  cbn [mbind option_bind].
  destruct (scanWindow_total smoothedPoints i windowSize current) as [[isHigh isLow] ->];
    [lia | lia |].
  simpl. eauto.
Qed.

Lemma mergeInv_init : mergeInv (num:=num) ([], None).
Proof. split; [done |]. intros a b (i & Ha & _). done. Qed.

Lemma replaces_time (x y : TideExtreme num) :
  replaces x y → minTimeBetweenExtremes ≤ time y - time x.
Proof. by intros [[? _] _]. Qed.

Lemma mergeStep_inv st candidate : mergeInv st → mergeInv (mergeStep st candidate).
Proof.
  destruct st as [extremes lastExtreme]. intros [Hlast Hadj]. simpl in Hlast, Hadj.
  unfold mergeStep. destruct lastExtreme as [lastE|].
  - symmetry in Hlast. pose proof Hlast as Hl. apply last_Some in Hl as [l' ->].
    destruct (bool_decide (minTimeBetweenExtremes ≤ time candidate - time lastE)
              && leb minHeightDifference
                   (Math_abs (sub (height candidate) (height lastE)))) eqn:Hgap;
      [| by split].
    apply andb_prop in Hgap as [Htime%bool_decide_eq_true Hheight].
    assert (gapOk lastE candidate) as Hok by done.
    case_bool_decide as Htype.
    + (* the alternating case: the candidate is appended *)
      split; simpl; [by rewrite last_snoc |].
      intros a b [Hab | [Ha ->]]%adjacent_snoc; [by apply Hadj |].
      assert (a = lastE) as -> by congruence.
      split_and!; [done | done | exists candidate; split; [done | apply rtc_refl]].
    + destruct (isMoreExtreme candidate lastE) eqn:Hmore; [| by split].
      (* the replace step *)
      assert (type candidate = type lastE) as Hsame
        by (destruct (decide (type candidate = type lastE)); done).
      rewrite insert_app_r_alt by (rewrite length_app; simpl; lia).
      replace (length (l' ++ [lastE]) - 1 - length l')%nat with 0%nat
        by (rewrite length_app; simpl; lia).
      split; simpl; [by rewrite last_snoc |].
      intros a b [Hab | [Ha ->]]%adjacent_snoc.
      * apply Hadj, adjacent_snoc. by left.
      * destruct (Hadj a lastE) as (Ht & Hty & b0 & Hb0 & Hrtc);
          [apply adjacent_snoc; by right |].
        pose proof (proj1 Hok) as Ht'. unfold minTimeBetweenExtremes in Ht, Ht' |- *.
        split_and!; [lia | congruence |].
        exists b0. split; [done |]. eapply rtc_r; [done |]. done.
  - (* the first candidate *)
    assert (extremes = []) as -> by (by apply last_None).
    split; simpl; [done |]. intros a b (i & Ha & Hb). by destruct i.
Qed.

Lemma filterCandidates_inv candidates :
  ∀ a b, adjacent (filterCandidates candidates) a b → pairOk a b.
Proof.
  unfold filterCandidates.
  assert (∀ st, mergeInv st → mergeInv (fold_left mergeStep candidates st)) as Hfold.
  { induction candidates as [|c cs IH]; intros st Hst; simpl; [done |].
    by apply IH, mergeStep_inv. }
  apply (Hfold _ mergeInv_init).
Qed.

Lemma findExtremes_total points : is_Some (findExtremes points).
Proof.
  unfold findExtremes. case_bool_decide; [done |].
  rewrite smoothData_Some. simpl.
  destruct (scanCandidates_total
    (imap (λ i p, mkPoint (pt_time p)
       (arithmeticMean (pt_height <$> clampedWindow points 3 (Z.of_nat i)))) points) 6)
    as [candidates ->]; [lia |].
  simpl. eauto.
Qed.

Lemma findExtremes_inv points extremes :
  findExtremes points = Some extremes →
  ∀ a b, adjacent extremes a b → pairOk a b.
Proof.
  unfold findExtremes. case_bool_decide.
  - intros [= <-] a b (i & Ha & _). done.
  - intros Hf. apply bind_Some in Hf as (smoothed & _ & Hf).
    apply bind_Some in Hf as (candidates & _ & [= <-]).
    apply filterCandidates_inv.
Qed.

End Detector.

Section DetectorClaims.
Context {num : Type} `{JsNumber num}.
Implicit Types (points : list (TidePoint num)).
Implicit Types (extremes : list (TideExtreme num)).

(** C8. A points list with fewer than 10 elements gives the empty extrema
    list, as a value: nothing is raised. *)
Theorem findExtremes_few_points points :
  (length points < 10)%nat → findExtremes points = Some [].
Proof.
  intros Hlen. unfold findExtremes. by rewrite bool_decide_eq_true_2 by lia.
Qed.

Lemma adjacent_strictly_sorted extremes :
  (∀ a b, adjacent extremes a b → time a < time b) →
  ∀ (i j : nat) a b, (i < j)%nat →
    extremes !! i = Some a → extremes !! j = Some b → time a < time b.
Proof.
  intros Hadj i j. induction j as [|j IH]; intros a b Hij Ha Hb; [lia |].
  destruct (lookup_lt_is_Some_2 extremes j) as [c Hc];
    [apply lookup_lt_Some in Hb; lia |].
  assert (time c < time b) by (apply Hadj; by exists j).
  destruct (decide (i = j)) as [-> | Hne]; [congruence |].
  assert (time a < time c) by (apply IH; [lia | done | done]). lia.
Qed.

(** C5. The extrema list returned by findExtremes is sorted by time in
    strictly ascending order (consecutive entries, hence any two entries),
    and no two consecutive entries have the same kind. *)
Theorem findExtremes_sorted_alternating points :
  ∃ extremes, findExtremes points = Some extremes
    ∧ (∀ a b, adjacent extremes a b → time a < time b ∧ type a ≠ type b)
    ∧ (∀ (i j : nat) a b, (i < j)%nat →
         extremes !! i = Some a → extremes !! j = Some b → time a < time b).
Proof.
  destruct (findExtremes_total points) as [extremes Hf]. exists extremes.
  pose proof (findExtremes_inv points extremes Hf) as Hinv.
  assert (∀ a b, adjacent extremes a b → time a < time b ∧ type a ≠ type b) as Hadj.
  { intros a b (Ht & Hty & _)%Hinv. unfold minTimeBetweenExtremes in Ht. split; [lia | done]. }
  split_and!; [done | done |].
  apply adjacent_strictly_sorted. intros a b Hab. by apply Hadj.
Qed.

(** X18. For every input points list, every pair of consecutive entries
    of the list findExtremes returns is at least 4 hours (14,400,000 ms)
    apart in time: an appended entry and a replacing entry are both at
    least 4 hours after the entry that was last. *)
Theorem findExtremes_time_gap points :
  ∃ extremes, findExtremes points = Some extremes
    ∧ ∀ a b, adjacent extremes a b → 14400000 ≤ time b - time a.
Proof.
  destruct (findExtremes_total points) as [extremes Hf]. exists extremes.
  split; [done |]. intros a b Hab.
  destruct (findExtremes_inv points extremes Hf a b Hab) as (Ht & _).
  unfold minTimeBetweenExtremes in Ht. lia.
Qed.

End DetectorClaims.

Lemma findExtremes_few_points_witness :
  (length (take 5 pathologicalSeries) < 10)%nat
  ∧ findExtremes (take 5 pathologicalSeries) = Some [].
Proof.
  split; [vm_compute; lia | apply findExtremes_few_points; vm_compute; lia].
Defined.

Example minTimeBetweenExtremes_ms : minTimeBetweenExtremes = 14400000.
Proof. reflexivity. Qed.

Example minHeightDifference_float : minHeightDifference = 0x1.999999999999ap-4%float.
Proof. reflexivity. Qed.

(** The candidates of [pathologicalSeries]: the smoothed dip at index 8
    ((1.25 + 0.5 + 1.25) / 3 = 1), the smoothed peak at index 24
    ((0.625 + 1 + 0.625) / 3 = 0.75) and the smoothed peak at index 40
    ((0.625 + 1.5625 + 0.625) / 3 = 0.9375), 8 hours apart. *)
Example pathologicalSeries_candidates :
  smoothData pathologicalSeries 3 ≫= (λ smoothedPoints, scanCandidates smoothedPoints 6)
  = Some [mkExtreme 1735704000000 1%float low;
          mkExtreme 1735732800000 0.75%float high;
          mkExtreme 1735761600000 0.9375%float high].
Proof. vm_compute. reflexivity. Qed.

(** C1, on the failing input. The filter loop is written to keep accepted
    extremes at least 0.1 m apart (its comments: '10cm minimum difference',
    'Ensure minimum time separation and height difference'; the branch that
    appends tests the new pair). The branch that replaces the last entry
    does not test the new entry against the one before it. On
    [pathologicalSeries] the detector accepts the low of 1 m, then the peak
    of 0.75 m (0.25 m away), and replaces that peak by the later, higher
    peak of 0.9375 m: the list returned is the low of 1 m followed by the
    high of 0.9375 m, 16 hours but only 0.0625 m apart, and the test
    heightDiff >= 0.1 is false of this consecutive pair. *)
Lemma findExtremes_height_gap_counterexample :
  findExtremes pathologicalSeries
  = Some [mkExtreme 1735704000000 1%float low;
          mkExtreme 1735761600000 0.9375%float high]
  ∧ leb (num:=float) minHeightDifference
        (Math_abs (sub 0.9375%float 1%float)) = false.
Proof. split; vm_compute; reflexivity. Qed.

(** ** The risk classifier *)

Section Classifier.
Context {num : Type} `{JsNumber num}.
Implicit Types (extremes l : list (TideExtreme num)).

Lemma insertByTime_Permutation (e : TideExtreme num) l : insertByTime e l ≡ₚ e :: l.
Proof.
  induction l as [|x l IH]; simpl; [done |].
  case_bool_decide; [done |]. rewrite IH. apply Permutation_swap.
Qed.

Lemma sortByTime_Permutation l : sortByTime l ≡ₚ l.
Proof.
  induction l as [|x l IH]; simpl; [done |].
  by rewrite insertByTime_Permutation, IH.
Qed.

Lemma sortByTime_length l : length (sortByTime l) = length l.
Proof. apply Permutation_length, sortByTime_Permutation. Qed.

Lemma insertByTime_sorted (e : TideExtreme num) l :
  StronglySorted (λ a b, time a ≤ time b) l →
  StronglySorted (λ a b, time a ≤ time b) (insertByTime e l).
Proof.
  induction 1 as [|x l Hl IH Hx]; simpl; [repeat constructor |].
  case_bool_decide as Hle.
  - constructor; [by constructor |]. constructor; [done |].
    eapply Forall_impl; [exact Hx |]. simpl. intros; lia.
  - constructor; [done |]. rewrite insertByTime_Permutation.
    constructor; [lia | done].
Qed.

Lemma sortByTime_sorted l : StronglySorted (λ a b, time a ≤ time b) (sortByTime l).
Proof.
  induction l as [|x l IH]; simpl; [constructor | by apply insertByTime_sorted].
Qed.

(** The sort is stable: the entries of any one [time] keep their order. *)
Lemma insertByTime_stable (e : TideExtreme num) l (t : Z) :
  filter (λ x, time x = t) (insertByTime e l) = filter (λ x, time x = t) (e :: l).
Proof.
  induction l as [|x l IH]; simpl; [done |].
  case_bool_decide as Hle; [done |].
  rewrite filter_cons, IH, !filter_cons.
  repeat case_decide; try done; lia.
Qed.

Lemma sortByTime_stable l (t : Z) :
  filter (λ x, time x = t) (sortByTime l) = filter (λ x, time x = t) l.
Proof.
  induction l as [|x l IH]; simpl; [done |].
  by rewrite insertByTime_stable, !filter_cons, IH.
Qed.

(** The pair loop, from index [lo]: it ends having returned exactly when
    it had returned before or some pair ([i-1], [i]) qualifies. *)
Lemma swing_loop (sorted : list (TideExtreme num)) (lo hi : Z) (returned : bool) :
  1 ≤ lo → hi < Z.of_nat (length sorted) →
  ∃ b, foldlM (λ (returned : bool) i,
         if returned then Some true else
         cur ← get sorted i;
         prev ← get sorted (i - 1);
         Some (rapidSwing prev cur)) returned (range lo hi) = Some b
    ∧ (b = true ↔ returned = true
         ∨ ∃ (i : nat) prev cur, lo ≤ Z.of_nat (S i) ≤ hi
             ∧ sorted !! i = Some prev ∧ sorted !! S i = Some cur
             ∧ rapidSwing prev cur = true).
Proof.
  intros Hlo Hhi. remember (Z.to_nat (hi - lo + 1)) as n eqn:Hn.
  revert lo returned Hlo Hn. induction n as [|n IH]; intros lo returned Hlo Hn.
  - rewrite range_empty by lia. exists returned. split; [done |].
    split; [by left |]. intros [? | (i & ? & ? & ? & _)]; [done | lia].
  - rewrite range_cons by lia. cbn [foldlM].
    destruct returned.
    + cbn [mbind option_bind]. destruct (IH (lo + 1) true) as (b & -> & Hb); [lia | lia |].
      exists b. split; [done |]. split; [by left |]. intros _. apply Hb. by left.
    + set (i := Z.to_nat (lo - 1)).
      assert (get sorted lo = sorted !! S i) as ->
        by (rewrite <- get_of_nat; f_equal; lia).
      assert (get sorted (lo - 1) = sorted !! i) as ->
        by (rewrite <- get_of_nat; f_equal; lia).
      destruct (lookup_lt_is_Some_2 sorted (S i)) as [cur Hcur]; [lia |].
      destruct (lookup_lt_is_Some_2 sorted i) as [prev Hprev]; [lia |].
      rewrite Hcur, Hprev. cbn [mbind option_bind].
      destruct (IH (lo + 1) (rapidSwing prev cur)) as (b & -> & Hb); [lia | lia |].
      exists b. split; [done |]. rewrite Hb. split.
      * intros [Hr | (j & p & c & Hj & Hp & Hc & Hr)].
        -- right. exists i, prev, cur. split_and!; [lia | lia | done | done | done].
        -- right. exists j, p, c. split_and!; [lia | lia | done | done | done].
      * intros [? | (j & p & c & Hj & Hp & Hc & Hr)]; [done |].
        destruct (decide (j = i)) as [-> | Hne].
        -- left. congruence.
        -- right. exists j, p, c. split_and!; [lia | lia | done | done | done].
Qed.

(** C4. isDangerousTide returns, and returns true if and only if
    height > 0.85, or some adjacent pair of the extrema sorted by time
    ascending (the stable sort the code applies) has absolute height
    difference > 0.4 and time difference < 14,400,000 ms; on the empty list
    it returns exactly whether height > 0.85. *)
Theorem isDangerousTide_spec (h : num) extremes :
  (∃ b, isDangerousTide h extremes = Some b
     ∧ (b = true ↔
          ltb (decimal 85 2) h = true
          ∨ ∃ prev cur, adjacent (sortByTime extremes) prev cur
              ∧ ltb (decimal 4 1) (Math_abs (sub (height cur) (height prev))) = true
              ∧ time cur - time prev < 14400000))
  ∧ isDangerousTide h [] = Some (ltb (decimal 85 2) h)
  ∧ sortByTime extremes ≡ₚ extremes
  ∧ StronglySorted (λ a b, time a ≤ time b) (sortByTime extremes).
Proof.
  split_and!; [| | apply sortByTime_Permutation | apply sortByTime_sorted].
  - unfold isDangerousTide, highTideThreshold.
    destruct (ltb (decimal 85 2) h) eqn:Hh.
    { exists true. split; [done |]. split; [by left | done]. }
    case_bool_decide as Hlen.
    + destruct (swing_loop (sortByTime extremes) 1
                  (Z.of_nat (length (sortByTime extremes)) - 1) false)
        as (b & -> & Hb); [lia | lia |].
      exists b. split; [done |]. rewrite Hb. split.
      * intros [? | (i & p & c & _ & Hp & Hc & [Hd Ht%bool_decide_eq_true]%andb_prop)];
          [done |]. right. exists p, c. split; [by exists i | done].
      * intros [? | (p & c & (i & Hp & Hc) & Hd & Ht)]; [done |].
        right. exists i, p, c.
        apply lookup_lt_Some in Hc as Hi.
        split_and!; [lia | lia | done | done |].
        unfold rapidSwing. rewrite Hd. by rewrite bool_decide_eq_true_2.
    + exists false. split; [done |]. split; [done |].
      intros [? | (p & c & (i & Hp & Hc) & _)]; [done |].
      apply lookup_lt_Some in Hc. rewrite sortByTime_length in Hc. lia.
  - unfold isDangerousTide, highTideThreshold. by destruct (ltb (decimal 85 2) h).
Qed.

End Classifier.

(** ** The recommendation generator *)

Section Recommendations.
Context {num : Type} `{JsNumber num}.
Implicit Types (extremes sorted : list (TideExtreme num)) (rt : Runtime num).

(** The hour of day lies in [lo .. hi] exactly when the time of day is
    from [lo]:00 up to, and not including, [hi + 1]:00. *)
Lemma hourWithin_clock rt (t lo hi : Z) :
  hourWithin rt (newDate t) lo hi
  ↔ Z.abs t ≤ 8640000000000000
    ∧ lo * msPerHour ≤ timeOfDay rt t < (hi + 1) * msPerHour.
Proof.
  unfold hourWithin, getHours, newDate, timeOfDay, msPerHour, msPerDay.
  case_bool_decide as Hclip; cbn [mbind option_bind].
  - split.
    + intros (h & [= <-] & Hh). split; [done |].
      revert Hh. generalize (LocalTime rt t). intros x Hh.
      Z.div_mod_to_equations. lia.
    + intros [_ Hh]. eexists. split; [done |].
      revert Hh. generalize (LocalTime rt t). intros x Hh.
      Z.div_mod_to_equations. lia.
  - split; [by intros (h & ? & _) | by intros [? _]].
Qed.

Lemma nan_test_range (x : option Z) (lo hi : Z) :
  nan_test (λ h, bool_decide (lo ≤ h)) x && nan_test (λ h, bool_decide (h ≤ hi)) x = true
  ↔ ∃ h, x = Some h ∧ lo ≤ h ≤ hi.
Proof.
  destruct x as [h|]; simpl.
  - rewrite andb_true_iff, !bool_decide_eq_true. split.
    + intros [? ?]. by exists h.
    + by intros (? & [= <-] & ? & ?).
  - split; [done | by intros (? & ? & _)].
Qed.

Lemma recommendations_loop rt sorted (lo : Z) (recommendations : list Recommendation) :
  0 ≤ lo →
  foldlM (λ recommendations i,
    extreme ← get sorted i;
    let time_ := newDate (time extreme) in
    let recommendations :=
      if bool_decide (type extreme = low)
         && nan_test (λ h, bool_decide (6 ≤ h)) (getHours rt time_)
         && nan_test (λ h, bool_decide (h ≤ 18)) (getHours rt time_)
      then recommendations ++ [mkRec time_ reason_beach]
      else recommendations in
    if bool_decide (type extreme = low) then
      let swimmingTime := newDate (time extreme + 3600000) in
      if nan_test (λ h, bool_decide (7 ≤ h)) (getHours rt swimmingTime)
         && nan_test (λ h, bool_decide (h ≤ 17)) (getHours rt swimmingTime)
      then Some (recommendations ++ [mkRec swimmingTime reason_swimming])
      else Some recommendations
    else Some recommendations)
  recommendations (range lo (Z.of_nat (length sorted) - 1))
  = Some (recommendations ++ (drop (Z.to_nat lo) sorted ≫= recommendationsOf rt)).
Proof.
  intros Hlo. remember (Z.to_nat (Z.of_nat (length sorted) - lo)) as n eqn:Hn.
  revert lo recommendations Hlo Hn. induction n as [|n IH]; intros lo recs Hlo Hn.
  - rewrite range_empty by lia. rewrite drop_ge by lia. simpl. by rewrite app_nil_r.
  - rewrite range_cons by lia. cbn [foldlM].
    destruct (get_in_range sorted lo) as [e He]; [lia |]. rewrite He.
    unfold get in He. rewrite bool_decide_eq_true_2 in He by lia.
    rewrite (drop_S _ _ _ He). cbn [mbind option_bind list_bind].
    replace (S (Z.to_nat lo)) with (Z.to_nat (lo + 1)) by lia.
    unfold recommendationsOf.
    destruct (bool_decide (type e = low)); cbn [andb];
      repeat match goal with
             | |- context [if ?c then _ else _] => destruct c
             end;
      cbn [mbind option_bind]; rewrite IH by lia; f_equal;
      by rewrite <- ?app_assoc.
Qed.

Lemma getBestFridayVisitTimes_Some rt extremes :
  getBestFridayVisitTimes rt extremes
  = Some (sortByTime (filter (λ e, isFriday rt e = true) extremes)
          ≫= recommendationsOf rt).
Proof.
  unfold getBestFridayVisitTimes. by rewrite recommendations_loop by lia.
Qed.

Lemma elem_of_recommendationsOf rt e (r : Recommendation) :
  r ∈ recommendationsOf rt e ↔
    type e = low
    ∧ ((hourWithin rt (newDate (time e)) 6 18
        ∧ r = mkRec (newDate (time e)) reason_beach)
       ∨ (hourWithin rt (newDate (time e + 3600000)) 7 17
          ∧ r = mkRec (newDate (time e + 3600000)) reason_swimming)).
Proof.
  unfold recommendationsOf, hourWithin. rewrite elem_of_app.
  destruct (bool_decide (type e = low)) eqn:Hlow; cbn [andb].
  - apply bool_decide_eq_true in Hlow.
    rewrite <- !nan_test_range.
    destruct (nan_test _ _ && nan_test _ _), (nan_test _ _ && nan_test _ _);
      rewrite ?list_elem_of_singleton, ?elem_of_nil; intuition congruence.
  - apply bool_decide_eq_false in Hlow. rewrite !elem_of_nil. tauto.
Qed.

Lemma elem_of_recommendations rt extremes (r : Recommendation) :
  r ∈ sortByTime (filter (λ e, isFriday rt e = true) extremes) ≫= recommendationsOf rt
  ↔ ∃ e, e ∈ extremes ∧ isFriday rt e = true ∧ r ∈ recommendationsOf rt e.
Proof.
  rewrite list_elem_of_bind. split.
  - intros (e & Hr & He).
    rewrite sortByTime_Permutation in He. apply list_elem_of_filter in He as [? ?].
    eauto.
  - intros (e & He & Hfri & Hr). exists e. split; [done |].
    rewrite sortByTime_Permutation. by apply list_elem_of_filter.
Qed.

(** C3, as the code has it. The generator returns a list in which: the
    recommendations with the 'ideal for beach activities' reason are exactly
    those at the time of a Low extreme falling on a Friday whose local hour
    of day is between 6 and 18 (clock times 06:00 to 18:59); the
    recommendations with the 'good for swimming' reason are exactly those
    at (time + 1 hour) of a Friday Low extreme for which the local hour of
    day of that derived time is between 7 and 17 (clock times 07:00 to
    17:59); every recommendation is of one of these two sorts, so High
    extrema (and extrema off Friday) produce none. *)
Theorem getBestFridayVisitTimes_spec rt extremes :
  ∃ recs, getBestFridayVisitTimes rt extremes = Some recs
    ∧ (∀ d, mkRec d reason_beach ∈ recs ↔
         ∃ e, e ∈ extremes ∧ type e = low ∧ isFriday rt e = true
              ∧ hourWithin rt (newDate (time e)) 6 18 ∧ d = newDate (time e))
    ∧ (∀ d, mkRec d reason_swimming ∈ recs ↔
         ∃ e, e ∈ extremes ∧ type e = low ∧ isFriday rt e = true
              ∧ hourWithin rt (newDate (time e + 3600000)) 7 17
              ∧ d = newDate (time e + 3600000))
    ∧ (∀ r, r ∈ recs → reason r = reason_beach ∨ reason r = reason_swimming)
    ∧ (Forall (λ e, type e = high) extremes → recs = []).
Proof.
  eexists. split; [apply getBestFridayVisitTimes_Some |]. split_and!.
  - intros d. rewrite elem_of_recommendations. split.
    + intros (e & He & Hfri & Hr). apply elem_of_recommendationsOf in Hr
        as [Hlow [[Hh Hr] | [_ Hr]]]; [| discriminate Hr..].
      exists e. injection Hr as ->. done.
    + intros (e & He & Hlow & Hfri & Hh & ->). exists e. split_and!; [done..|].
      apply elem_of_recommendationsOf. split; [done |]. by left.
  - intros d. rewrite elem_of_recommendations. split.
    + intros (e & He & Hfri & Hr). apply elem_of_recommendationsOf in Hr
        as [Hlow [[_ Hr] | [Hh Hr]]]; [discriminate Hr.. |].
      exists e. injection Hr as ->. done.
    + intros (e & He & Hlow & Hfri & Hh & ->). exists e. split_and!; [done..|].
      apply elem_of_recommendationsOf. split; [done |]. by right.
  - intros r (e & _ & _ & Hr)%elem_of_recommendations.
    apply elem_of_recommendationsOf in Hr as [_ [[_ ->] | [_ ->]]]; simpl; eauto.
  - intros Hhigh.
    destruct (_ ≫= _) as [|r recs] eqn:Hrecs; [done |]. exfalso.
    assert (r ∈ r :: recs) as Hr by left. rewrite <- Hrecs in Hr.
    apply elem_of_recommendations in Hr as (e & He & _ & Hr).
    apply elem_of_recommendationsOf in Hr as [Hlow _].
    rewrite Forall_forall in Hhigh. specialize (Hhigh e He). congruence.
Qed.

End Recommendations.

(** C3 fails as stated. A Low at 18:30 on a Friday (UTC) is outside the
    clock window from 06:00 to 18:00, yet its hour of day is 18 and the
    generator recommends it for beach activities. *)
Lemma friday_window_counterexample :
  getBestFridayVisitTimes utc [lowAtFriday1830]
  = Some [mkRec (Some 1735929000000) reason_beach]
  ∧ isFriday utc lowAtFriday1830 = true
  ∧ timeOfDay utc (time lowAtFriday1830) = 18 * msPerHour + 30 * 60000
  ∧ ¬ inClockWindow utc (time lowAtFriday1830) 6 18.
Proof.
  split_and!; [vm_compute; reflexivity.. |].
  unfold inClockWindow. vm_compute. intros [_ Hle]. by apply Hle.
Qed.

(** ** The smoother: claims *)

Section SmootherClaims.
Context {num : Type} `{JsNumber num}.
Implicit Types (points smoothed : list (TidePoint num)).

(** C7, as the code has it. smoothData returns a sequence of the same
    length as the input, with every time unchanged and each height
    replaced by the arithmetic mean of the input heights at the indices
    from max(0, i - floor(windowSize/2)) to
    min(length - 1, i + floor(windowSize/2)): a centered window truncated at
    the ends of the sequence, which away from the ends holds
    2 * floor(windowSize/2) + 1 samples (windowSize samples exactly when
    windowSize is odd). *)
Theorem smoothData_spec points windowSize :
  ∃ smoothed, smoothData points windowSize = Some smoothed
    ∧ length smoothed = length points
    ∧ ∀ (i : nat) p, points !! i = Some p →
        ∃ q, smoothed !! i = Some q
          ∧ pt_time q = pt_time p
          ∧ pt_height q
            = arithmeticMean (pt_height <$> clampedWindow points windowSize (Z.of_nat i))
          ∧ clampedWindow points windowSize (Z.of_nat i)
            = window points (Z.max 0 (Z.of_nat i - windowSize / 2))
                (Z.min (Z.of_nat (length points) - 1) (Z.of_nat i + windowSize / 2))
          ∧ (0 ≤ windowSize → windowSize / 2 ≤ Z.of_nat i →
             Z.of_nat i + windowSize / 2 ≤ Z.of_nat (length points) - 1 →
             Z.of_nat (length (clampedWindow points windowSize (Z.of_nat i)))
             = 2 * (windowSize / 2) + 1).
Proof.
  eexists. split; [apply smoothData_Some |]. split; [apply length_imap |].
  intros i p Hp. eexists. rewrite list_lookup_imap, Hp. simpl.
  split_and!; [done..|].
  intros Hw Hlo Hhi. unfold clampedWindow.
  assert (0 ≤ windowSize / 2) by (apply Z.div_pos; lia).
  rewrite length_window by lia. lia.
Qed.

End SmootherClaims.

(** C7 fails as stated. With windowSize 2 the smoother averages the three
    samples 0, 3, 0 around the spike of [spikeSeries] (mean 1), not two:
    both windows of two samples that hold the spike have mean 1.5. *)
Lemma smoothData_even_window_counterexample :
  smoothData spikeSeries 2 ≫= (.!! 2%nat) = Some (mkPoint 1735693200000 1%float)
  ∧ length (clampedWindow spikeSeries 2 2) = 3%nat
  ∧ arithmeticMean (pt_height <$> window spikeSeries 1 2) = 1.5%float
  ∧ arithmeticMean (pt_height <$> window spikeSeries 2 3) = 1.5%float.
Proof. split_and!; vm_compute; reflexivity. Qed.

(** ** The signal synthesizer *)

Section Synthesizer.
Context {num : Type} `{JsNumber num} `{JsMath num}.
Implicit Types (rt : Runtime num) (cs : list (HarmonicConstituent num)).

Lemma addConstituent_contribution rt t (h : num) (c : HarmonicConstituent num) :
  addConstituent (hoursElapsed rt t) h c = add h (contribution rt t c).
Proof. unfold addConstituent, contribution. by case_bool_decide. Qed.

Lemma fold_addConstituent rt t cs (h : num) :
  fold_left (addConstituent (hoursElapsed rt t)) cs h
  = fold_left add (contribution rt t <$> cs) h.
Proof.
  revert h. induction cs as [|c cs IH]; intros h; simpl; [done |].
  by rewrite addConstituent_contribution, IH.
Qed.

(** C2, as the code has it. The accumulated height is the sum, from the
    left, of one contribution per constituent; a constituent named 'Z0'
    contributes exactly its amplitude, whatever the time (and its speed),
    and every other constituent contributes
    amplitude * cos((speed * hoursElapsed + phase) * pi/180), where
    hoursElapsed is the time since the reference epoch in hours. The
    random variation random * 0.1 - 0.05 is added last. *)
Theorem calculateTideHeight_contributions rt t cs (random : num) :
  sumConstituents rt t cs = fold_left add (contribution rt t <$> cs) (of_Z 0)
  ∧ (∀ c, name c = "Z0" → contribution rt t c = amplitude c)
  ∧ (∀ c, name c ≠ "Z0" →
       contribution rt t c
       = mul (amplitude c)
             (Math_cos (mul (add (mul (speed c) (hoursElapsed rt t)) (phase c))
                            (div Math_PI (of_Z 180)))))
  ∧ hoursElapsed rt t = div (of_Z (t - REFERENCE_TIME rt)) (of_Z 3600000)
  ∧ calculateTideHeight rt t cs random
    = add (sumConstituents rt t cs) (sub (mul random (decimal 1 1)) (decimal 5 2)).
Proof.
  split_and!; [apply fold_addConstituent | | | done | done].
  - intros c Hc. unfold contribution. by rewrite bool_decide_eq_true_2.
  - intros c Hc. unfold contribution. by rewrite bool_decide_eq_false_2.
Qed.

End Synthesizer.

(** In the default constituent set the constituent named Z0 is the only
    one of speed 0, in real and in binary64 arithmetic: there the zero
    speed and the name select the same term. *)
Lemma default_Z0_is_the_still_one_real (c : HarmonicConstituent R) :
  c ∈ getDefaultConstituents → (speed c = 0%R ↔ name c = "Z0").
Proof.
  unfold getDefaultConstituents. rewrite !elem_of_cons, elem_of_nil.
  intros [-> | [-> | [-> | [-> | [-> | [-> | []]]]]]]; simpl;
    unfold decimal; simpl; change (10 ^ Z.of_nat 3) with 1000;
    (split; [intros Hs; try done; exfalso; lra | intros Hn; try done; lra]).
Qed.

Lemma default_Z0_is_the_still_one_float :
  (λ c : HarmonicConstituent float,
     (PrimFloat.eqb (speed c) 0, bool_decide (name c = "Z0")))
    <$> getDefaultConstituents
  = [(false, false); (false, false); (false, false); (false, false);
     (false, false); (true, true)].
Proof. vm_compute. reflexivity. Qed.

(** C2 fails as stated. A constituent of speed 0 that is not named Z0
    (amplitude 1, phase 180) contributes amplitude * cos(pi) = -1 to the
    accumulated height, not its amplitude. *)
Lemma still_constituent_counterexample :
  speed stillConstituent = 0%R
  ∧ amplitude stillConstituent = 1%R
  ∧ sumConstituents realRun 1735862400000 [stillConstituent] = (-1)%R.
Proof.
  split_and!; [done | done |].
  unfold sumConstituents, stillConstituent. cbn [fold_left].
  unfold addConstituent. rewrite bool_decide_eq_false_2 by done.
  cbn [speed phase amplitude add mul div of_Z Real Math_cos Math_PI RealMath].
  replace ((0 * hoursElapsed realRun 1735862400000 + 180) * (PI / 180))%R with PI
    by (field_simplify; lra).
  rewrite cos_PI. lra.
Qed.

(** ** The sampler *)

Section Sampler.
Context {num : Type} `{JsNumber num} `{JsMath num}.
Implicit Types (rt : Runtime num) (cs : list (HarmonicConstituent num)).

Lemma samplePoints_stop rt cs endTime t k :
  endTime < t → samplePoints rt cs endTime t k = [].
Proof.
  intros. rewrite samplePoints_equation_1.
  destruct (decide (t ≤ endTime)); [lia | reflexivity].
Qed.

Lemma samplePoints_step rt cs endTime t k :
  t ≤ endTime →
  samplePoints rt cs endTime t k
  = mkPoint t (calculateTideHeight rt t cs (Math_random rt k))
    :: samplePoints rt cs endTime (t + samplingInterval) (S k).
Proof.
  intros. rewrite (samplePoints_equation_1 rt cs endTime t k).
  destruct (decide (t ≤ endTime)); [reflexivity | lia].
Qed.

Lemma sampleTimes_cons (startTime n : Z) :
  0 < n → sampleTimes startTime n = startTime :: sampleTimes (startTime + 1800000) (n - 1).
Proof.
  intros. unfold sampleTimes. rewrite seqZ_cons by lia. cbn [fmap list_fmap].
  f_equal; [lia |]. rewrite <- (fmap_add_seqZ 1 0), <- list_fmap_compose.
  apply list_fmap_ext. intros _ i _. simpl. lia.
Qed.

Lemma sampleTimes_lookup (startTime n : Z) (i : nat) :
  Z.of_nat i < n → sampleTimes startTime n !! i = Some (startTime + Z.of_nat i * 1800000).
Proof.
  intros. unfold sampleTimes. rewrite list_lookup_fmap, lookup_seqZ_lt by lia. done.
Qed.

Lemma sampleTimes_length (startTime n : Z) :
  length (sampleTimes startTime n) = Z.to_nat n.
Proof. unfold sampleTimes. by rewrite length_fmap, length_seqZ. Qed.

(** The loop runs [n] times when [n] is the first multiple of the step
    beyond the end of the window. *)
Lemma samplePoints_times rt cs endTime t k (n : nat) :
  endTime - t < Z.of_nat n * samplingInterval →
  (Z.of_nat n - 1) * samplingInterval ≤ endTime - t →
  pt_time <$> samplePoints rt cs endTime t k = sampleTimes t (Z.of_nat n).
Proof.
  revert t k. induction n as [|n IH]; intros t k Hlt Hle; unfold samplingInterval in *.
  - rewrite samplePoints_stop by lia. done.
  - rewrite samplePoints_step by lia. rewrite sampleTimes_cons by lia.
    cbn [fmap list_fmap pt_time]. f_equal.
    unfold samplingInterval. replace (Z.of_nat (S n) - 1) with (Z.of_nat n) by lia.
    apply IH; unfold samplingInterval; lia.
Qed.

Lemma getTideData_Some rt (location : LocationConfig num) days
    (constituents : option (list (HarmonicConstituent num))) :
  ∃ found,
    findExtremes (samplePoints rt (default getDefaultConstituents constituents)
                    (Date_now rt + days * 86400000) (Date_now rt) 0) = Some found
    ∧ getTideData rt location days constituents
      = Some (mkTideData (samplePoints rt (default getDefaultConstituents constituents)
                            (Date_now rt + days * 86400000) (Date_now rt) 0) found).
Proof.
  unfold getTideData.
  destruct (findExtremes_total (samplePoints rt (default getDefaultConstituents constituents)
              (Date_now rt + days * 86400000) (Date_now rt) 0)) as [found Hf].
  exists found. by rewrite Hf.
Qed.

(** C6. For a non-negative number of days, getTideData returns points
    whose times are startTime + i * 1,800,000 ms for i = 0 .. days*48:
    days*48 + 1 of them, strictly increasing, from startTime to
    startTime + days * 86,400,000 inclusive; 337 points for 7 days. *)
Theorem getTideData_times rt (location : LocationConfig num) days
    (constituents : option (list (HarmonicConstituent num))) :
  0 ≤ days →
  ∃ data, getTideData rt location days constituents = Some data
    ∧ pt_time <$> points data = sampleTimes (Date_now rt) (days * 48 + 1)
    ∧ Z.of_nat (length (points data)) = days * 48 + 1
    ∧ (∀ (i : nat) p, points data !! i = Some p →
         pt_time p = Date_now rt + Z.of_nat i * 1800000
         ∧ Date_now rt ≤ pt_time p ≤ Date_now rt + days * 86400000)
    ∧ (∀ (i j : nat) p q, (i < j)%nat →
         points data !! i = Some p → points data !! j = Some q → pt_time p < pt_time q)
    ∧ pt_time <$> head (points data) = Some (Date_now rt)
    ∧ pt_time <$> last (points data) = Some (Date_now rt + days * 86400000)
    ∧ (days = 7 → length (points data) = 337%nat).
Proof.
  intros Hdays. destruct (getTideData_Some rt location days constituents) as (found & _ & ->).
  eexists. split; [done |]. cbn [points].
  set (pts := samplePoints _ _ _ _ _).
  assert (pt_time <$> pts = sampleTimes (Date_now rt) (days * 48 + 1)) as Htimes.
  { replace (days * 48 + 1) with (Z.of_nat (Z.to_nat (days * 48 + 1))) by lia.
    apply samplePoints_times; unfold samplingInterval; lia. }
  assert (Z.of_nat (length pts) = days * 48 + 1) as Hlen.
  { rewrite <- (length_fmap pt_time), Htimes, sampleTimes_length. lia. }
  assert (∀ (i : nat) p, pts !! i = Some p →
            pt_time p = Date_now rt + Z.of_nat i * 1800000) as Hat.
  { intros i p Hp. apply lookup_lt_Some in Hp as Hi.
    assert ((pt_time <$> pts) !! i = Some (pt_time p)) as Hq
      by (by rewrite list_lookup_fmap, Hp).
    rewrite Htimes, sampleTimes_lookup in Hq by lia. congruence. }
  split_and!; [done | done | | | | | lia].
  - intros i p Hp. apply lookup_lt_Some in Hp as Hi. rewrite (Hat i p Hp). lia.
  - intros i j p q Hij Hp Hq. rewrite (Hat i p Hp), (Hat j q Hq). lia.
  - destruct pts as [|p pts'] eqn:Hpts; [simpl in Hlen; lia |]. simpl.
    rewrite (Hat 0%nat p); [f_equal; lia | done].
  - rewrite last_lookup.
    destruct (lookup_lt_is_Some_2 pts (pred (length pts))) as [p Hp]; [lia |].
    rewrite Hp. simpl. rewrite (Hat _ p Hp). f_equal. lia.
Qed.

(** C9. With days = 0 getTideData returns exactly one point, at the start
    time, and no extremes; with negative days it returns no points and no
    extremes. Both are returned values: nothing is raised. *)
Theorem getTideData_degenerate rt (location : LocationConfig num)
    (constituents : option (list (HarmonicConstituent num))) :
  getTideData rt location 0 constituents
  = Some (mkTideData
            [mkPoint (Date_now rt)
               (calculateTideHeight rt (Date_now rt)
                  (default getDefaultConstituents constituents) (Math_random rt 0))] [])
  ∧ ∀ days, days < 0 → getTideData rt location days constituents = Some (mkTideData [] []).
Proof.
  split.
  - unfold getTideData. rewrite samplePoints_step by lia.
    rewrite samplePoints_stop by (unfold samplingInterval; lia). done.
  - intros days Hdays. unfold getTideData. rewrite samplePoints_stop by lia. done.
Qed.

(** C10. The location does not influence the output: with the same start
    time, reference epoch and random values, getTideData gives identical
    points and identical extremes for any two location descriptors; it
    returns one and the same result whatever the location. *)
Theorem getTideData_location_independent rt days
    (constituents : option (list (HarmonicConstituent num))) :
  (∀ location1 location2 : LocationConfig num,
     getTideData rt location1 days constituents
     = getTideData rt location2 days constituents)
  ∧ ∃ data, ∀ location : LocationConfig num,
      getTideData rt location days constituents = Some data.
Proof.
  split; [reflexivity |].
  destruct (findExtremes_total (samplePoints rt (default getDefaultConstituents constituents)
              (Date_now rt + days * 86400000) (Date_now rt) 0)) as [found Hf].
  eexists. intros location. unfold getTideData. rewrite Hf. reflexivity.
Qed.

End Sampler.

(** ** Instances of the claims on concrete inputs *)

Lemma getTideData_times_witness :
  0 ≤ 7
  ∧ ∃ data, getTideData realRun somewhere 7 None = Some data
      ∧ length (points data) = 337%nat
      ∧ pt_time <$> head (points data) = Some 1735862400000
      ∧ pt_time <$> last (points data) = Some (1735862400000 + 7 * 86400000).
Proof.
  split; [lia |].
  destruct (getTideData_times realRun somewhere 7 None)
    as (data & Hd & _ & _ & _ & _ & Hhead & Hlast & Hn); [lia |].
  exists data. split_and!; [exact Hd | apply Hn; reflexivity | exact Hhead | exact Hlast].
Defined.

Lemma getTideData_degenerate_witness :
  -1 < 0 ∧ getTideData realRun somewhere (-1) None = Some (mkTideData [] []).
Proof.
  split; [lia |].
  destruct (getTideData_degenerate realRun somewhere None) as [_ Hneg].
  apply Hneg. lia.
Defined.

Lemma findExtremes_sorted_alternating_witness :
  ∃ a b, findExtremes pathologicalSeries = Some [a; b]
    ∧ time a < time b ∧ type a ≠ type b.
Proof.
  destruct (findExtremes_sorted_alternating pathologicalSeries)
    as (found & Hf & Hadj & _).
  assert (findExtremes pathologicalSeries
          = Some [mkExtreme 1735704000000 1%float low;
                  mkExtreme 1735761600000 0.9375%float high]) as Hrun
    by (vm_compute; reflexivity).
  rewrite Hrun in Hf. injection Hf as <-.
  eexists _, _. split; [exact Hrun |]. apply Hadj. exists 0%nat. split; reflexivity.
Defined.

Lemma findExtremes_time_gap_witness :
  ∃ a b, findExtremes pathologicalSeries = Some [a; b]
    ∧ 14400000 ≤ time b - time a.
Proof.
  destruct (findExtremes_time_gap pathologicalSeries) as (found & Hf & Hadj).
  assert (findExtremes pathologicalSeries
          = Some [mkExtreme 1735704000000 1%float low;
                  mkExtreme 1735761600000 0.9375%float high]) as Hrun
    by (vm_compute; reflexivity).
  rewrite Hrun in Hf. injection Hf as <-.
  eexists _, _. split; [exact Hrun |]. apply Hadj. exists 0%nat. split; reflexivity.
Defined.

Lemma smoothData_spec_witness :
  ∃ q, smoothData spikeSeries 3 ≫= (.!! 2%nat) = Some q
    ∧ pt_time q = 1735693200000
    ∧ pt_height q = arithmeticMean [0%float; 3%float; 0%float].
Proof.
  destruct (smoothData_spec spikeSeries 3) as (smoothed & -> & _ & Hat).
  destruct (Hat 2%nat (mkPoint 1735693200000 3%float)) as (q & Hq & Ht & Hh & _);
    [reflexivity |].
  exists q. split_and!; [exact Hq | exact Ht | exact Hh].
Defined.

(** ** The examples of the specification, in binary64 *)

Example isDangerousTide_height_alone :
  isDangerousTide (num:=float) (decimal 90 2) [] = Some true.
Proof. vm_compute. reflexivity. Qed.

Example isDangerousTide_rapid_swing :
  isDangerousTide (num:=float) (decimal 5 1)
    [mkExtreme 1735689600000 (decimal 3 1) low;
     mkExtreme (1735689600000 + 2 * 3600000) (decimal 8 1) high] = Some true.
Proof. vm_compute. reflexivity. Qed.

Example isDangerousTide_slow_swing :
  isDangerousTide (num:=float) (decimal 5 1)
    [mkExtreme 1735689600000 (decimal 3 1) low;
     mkExtreme (1735689600000 + 6 * 3600000) (decimal 5 1) high] = Some false.
Proof. vm_compute. reflexivity. Qed.

(** A Low at 08:00 on Friday 3 January 2025 (UTC) gives two recommendations,
    at 08:00 and at 09:00. *)
Example friday_morning_low :
  getBestFridayVisitTimes utc [mkExtreme 1735891200000 0.25%float low]
  = Some [mkRec (Some 1735891200000) reason_beach;
          mkRec (Some 1735894800000) reason_swimming].
Proof. vm_compute. reflexivity. Qed.

Example friday_high_gives_nothing :
  getBestFridayVisitTimes utc [mkExtreme 1735891200000 0.75%float high] = Some [].
Proof. vm_compute. reflexivity. Qed.

(** ** The extremum detector: where the extremes come from *)

Section DetectorProvenance.
Context {num : Type} `{JsNumber num}.
Implicit Types (points smoothedPoints : list (TidePoint num)).
Implicit Types (candidates found : list (TideExtreme num)).

Lemma scanWindow_loop_flags smoothedPoints i current (l : list Z) (a b a' b' : bool) :
  foldlM (λ '(isHigh, isLow) j,
    if bool_decide (j ≠ i) then
      sj ← get smoothedPoints j;
      let isHigh := if leb (pt_height current) (pt_height sj) then false else isHigh in
      let isLow := if leb (pt_height sj) (pt_height current) then false else isLow in
      Some (isHigh, isLow)
    else Some (isHigh, isLow)) (a, b) l = Some (a', b') →
  (a' = true → a = true ∧ ∀ j sj, j ∈ l → j ≠ i → get smoothedPoints j = Some sj →
     leb (pt_height current) (pt_height sj) = false)
  ∧ (b' = true → b = true ∧ ∀ j sj, j ∈ l → j ≠ i → get smoothedPoints j = Some sj →
     leb (pt_height sj) (pt_height current) = false).
Proof.
  revert a b. induction l as [|j0 l IH]; intros a b; cbn [foldlM].
  - intros [= -> ->]. split; (split; [done |]); intros j sj Hj; by apply elem_of_nil in Hj.
  - case_bool_decide as Hne; cbn [mbind option_bind].
    + destruct (get smoothedPoints j0) as [s0|] eqn:Hs0; [| done]. cbn [mbind option_bind].
      intros [Ha Hb]%IH. split.
      * intros Ha'. destruct (Ha Ha') as [Hif Hall].
        destruct (leb (pt_height current) (pt_height s0)) eqn:Hle; [done |].
        split; [done |]. intros j sj [-> | Hj]%elem_of_cons Hji Hsj; [congruence | eauto].
      * intros Hb'. destruct (Hb Hb') as [Hif Hall].
        destruct (leb (pt_height s0) (pt_height current)) eqn:Hle; [done |].
        split; [done |]. intros j sj [-> | Hj]%elem_of_cons Hji Hsj; [congruence | eauto].
    + intros [Ha Hb]%IH. split.
      * intros Ha'. destruct (Ha Ha') as [-> Hall]. split; [done |].
        intros j sj [-> | Hj]%elem_of_cons Hji Hsj; [done | eauto].
      * intros Hb'. destruct (Hb Hb') as [-> Hall]. split; [done |].
        intros j sj [-> | Hj]%elem_of_cons Hji Hsj; [done | eauto].
Qed.

Lemma scanCandidates_loop smoothedPoints windowSize (l : list Z) candidates found :
  foldlM (λ candidates i,
    current ← get smoothedPoints i;
    '(isHigh, isLow) ← scanWindow smoothedPoints i windowSize current;
    Some (if isHigh && negb isLow then
            candidates ++ [mkExtreme (pt_time current) (pt_height current) high]
          else if isLow && negb isHigh then
            candidates ++ [mkExtreme (pt_time current) (pt_height current) low]
          else candidates)) candidates l = Some found →
  ∀ c, c ∈ found → c ∈ candidates ∨ ∃ i, i ∈ l ∧ candidateAt smoothedPoints windowSize i c.
Proof.
  revert candidates. induction l as [|i l IH]; intros candidates; cbn [foldlM].
  - intros [= ->] c Hc. by left.
  - destruct (get smoothedPoints i) as [current|] eqn:Hcur; [| done].
    cbn [mbind option_bind].
    destruct (scanWindow smoothedPoints i windowSize current) as [[isHigh isLow]|] eqn:Hscan;
      [| done].
    cbn [mbind option_bind]. intros Hrest c Hc.
    destruct (IH _ Hrest c Hc) as [Hin | (j & Hj & Hcand)];
      [| right; exists j; split; [by right | done]].
    unfold scanWindow in Hscan. apply scanWindow_loop_flags in Hscan as [Hhigh Hlow].
    destruct (isHigh && negb isLow) eqn:Hh.
    + apply elem_of_app in Hin as [? | ->%list_elem_of_singleton]; [by left |].
      right. exists i. split; [by left |]. exists current.
      apply andb_prop in Hh as [-> _]. destruct (Hhigh eq_refl) as [_ Hall].
      split_and!; [done | done | done | | done].
      intros _ j sj Hj%elem_of_range. by apply Hall.
    + destruct (isLow && negb isHigh) eqn:Hl; [| by left].
      apply elem_of_app in Hin as [? | ->%list_elem_of_singleton]; [by left |].
      right. exists i. split; [by left |]. exists current.
      apply andb_prop in Hl as [-> _]. destruct (Hlow eq_refl) as [_ Hall].
      split_and!; [done | done | done | done |].
      intros _ j sj Hj%elem_of_range. by apply Hall.
Qed.

Lemma scanCandidates_candidateAt smoothedPoints windowSize found c :
  scanCandidates smoothedPoints windowSize = Some found → c ∈ found →
  ∃ i, windowSize ≤ i < Z.of_nat (length smoothedPoints) - windowSize
       ∧ candidateAt smoothedPoints windowSize i c.
Proof.
  unfold scanCandidates. intros Hscan Hc.
  destruct (scanCandidates_loop _ _ _ _ _ Hscan c Hc) as [Hnil | (i & Hi%elem_of_range & Hcand)].
  - by apply elem_of_nil in Hnil.
  - exists i. split; [lia | done].
Qed.

(** The filter loop only keeps candidates, in their order. *)
Lemma mergeStep_sublist (st : list (TideExtreme num) * option (TideExtreme num))
    (pre : list (TideExtreme num)) c :
  st.1 `sublist_of` pre → st.2 = last st.1 →
  (mergeStep st c).1 `sublist_of` pre ++ [c].
Proof.
  destruct st as [found lastE]. simpl. intros Hsub Hlast. unfold mergeStep.
  destruct lastE as [lastE|].
  - repeat match goal with |- context [if ?b then _ else _] => destruct b end; simpl.
    + by apply sublist_app.
    + symmetry in Hlast. apply last_Some in Hlast as [l' ->].
      rewrite insert_app_r_alt by (rewrite length_app; simpl; lia).
      replace (length (l' ++ [lastE]) - 1 - length l')%nat with 0%nat
        by (rewrite length_app; simpl; lia).
      simpl. apply sublist_app; [| done].
      etrans; [| exact Hsub]. by apply sublist_inserts_r.
    + by apply sublist_inserts_r.
    + by apply sublist_inserts_r.
  - simpl. by apply sublist_app.
Qed.

Lemma filterCandidates_sublist_of candidates :
  filterCandidates candidates `sublist_of` candidates.
Proof.
  unfold filterCandidates.
  assert (∀ st pre, st.1 `sublist_of` pre → mergeInv st →
            (fold_left mergeStep candidates st).1 `sublist_of` pre ++ candidates) as Hfold.
  { induction candidates as [|c cs IH]; intros st pre Hsub Hinv; simpl.
    - by rewrite app_nil_r.
    - rewrite (assoc_L (++) pre [c] cs : pre ++ c :: cs = (pre ++ [c]) ++ cs).
      apply IH; [apply mergeStep_sublist; [done | apply Hinv] | by apply mergeStep_inv]. }
  apply (Hfold ([], None) []); [done | apply mergeInv_init].
Qed.

Lemma mergeStep_nonempty (st : list (TideExtreme num) * option (TideExtreme num)) c :
  st.2 = last st.1 → (mergeStep st c).1 ≠ [].
Proof.
  destruct st as [found lastE]. simpl. intros Hlast. unfold mergeStep.
  destruct lastE as [lastE|].
  - symmetry in Hlast. apply last_Some in Hlast as [l' ->].
    repeat match goal with |- context [if ?b then _ else _] => destruct b end; simpl;
      try (intros Hnil; apply (f_equal length) in Hnil;
           rewrite ?length_insert, ?length_app in Hnil; simpl in Hnil; lia).
  - simpl. intros Hnil. apply (f_equal length) in Hnil.
    rewrite length_app in Hnil. simpl in Hnil. lia.
Qed.

Lemma filterCandidates_nonempty c candidates : filterCandidates (c :: candidates) ≠ [].
Proof.
  unfold filterCandidates.
  assert (∀ cs st, mergeInv st → st.1 ≠ [] → (fold_left mergeStep cs st).1 ≠ []) as Hfold.
  { induction cs as [|c' cs IH]; intros st Hinv Hne; simpl; [done |].
    apply IH; [by apply mergeStep_inv | apply mergeStep_nonempty, Hinv]. }
  cbn [fold_left]. apply Hfold; [apply mergeStep_inv, mergeInv_init | by apply mergeStep_nonempty].
Qed.

End DetectorProvenance.

Section DetectorExtras.
Context {num : Type} `{JsNumber num}.
Implicit Types (points : list (TidePoint num)).
Implicit Types (candidates found : list (TideExtreme num)).

Lemma get_Some_nat {A} (a : list A) (j : Z) (x : A) :
  get a j = Some x → ∃ k : nat, j = Z.of_nat k ∧ a !! k = Some x.
Proof.
  unfold get. case_bool_decide; [| done]. intros Hx.
  exists (Z.to_nat j). split; [lia | done].
Qed.

Lemma get_smoothed points (j : Z) (sj : TidePoint num) :
  get (imap (λ i p, mkPoint (pt_time p)
         (arithmeticMean (pt_height <$> clampedWindow points 3 (Z.of_nat i)))) points) j
  = Some sj →
  ∃ (k : nat) p, j = Z.of_nat k ∧ points !! k = Some p
    ∧ sj = mkPoint (pt_time p) (smoothedHeight points j).
Proof.
  intros (k & -> & Hk)%get_Some_nat. rewrite list_lookup_imap in Hk.
  destruct (points !! k) as [p|] eqn:Hp; [| done]. simpl in Hk.
  exists k, p. split_and!; [done | done | unfold smoothedHeight; congruence].
Qed.

(** X1. Every extreme returned by findExtremes sits on an interior sample:
    its time is the time of the input point at some index i with at least
    6 points on each side, its height is the smoothed height there (the
    mean of the points i-1, i, i+1), and for a High no other smoothed
    point within 6 of i is greater or equal, for a Low none is less or
    equal. *)
Theorem findExtremes_provenance points found (e : TideExtreme num) :
  findExtremes points = Some found → e ∈ found →
  ∃ (i : nat) p,
    6 ≤ Z.of_nat i < Z.of_nat (length points) - 6
    ∧ points !! i = Some p
    ∧ time e = pt_time p
    ∧ height e = smoothedHeight points (Z.of_nat i)
    ∧ (type e = high → ∀ j : Z, Z.of_nat i - 6 ≤ j ≤ Z.of_nat i + 6 → j ≠ Z.of_nat i →
         leb (smoothedHeight points (Z.of_nat i)) (smoothedHeight points j) = false)
    ∧ (type e = low → ∀ j : Z, Z.of_nat i - 6 ≤ j ≤ Z.of_nat i + 6 → j ≠ Z.of_nat i →
         leb (smoothedHeight points j) (smoothedHeight points (Z.of_nat i)) = false).
Proof.
  unfold findExtremes. case_bool_decide as Hlen.
  { intros [= <-] He. by apply elem_of_nil in He. }
  rewrite smoothData_Some. cbn [mbind option_bind].
  set (smoothed := imap _ points).
  intros (candidates & Hscan & [= <-])%bind_Some He.
  assert (e ∈ candidates) as Hc
    by (eapply elem_of_sublist; [exact He | apply filterCandidates_sublist_of]).
  destruct (scanCandidates_candidateAt _ _ _ _ Hscan Hc)
    as (i & Hi & current & Hcur & Ht & Hh & Hhigh & Hlow).
  assert (length smoothed = length points) as Hsl by apply length_imap.
  rewrite Hsl in Hi.
  apply get_smoothed in Hcur as (k & p & -> & Hp & ->). simpl in *.
  assert (∀ j : Z, Z.of_nat k - 6 ≤ j ≤ Z.of_nat k + 6 →
            ∃ sj, get smoothed j = Some sj ∧ pt_height sj = smoothedHeight points j) as Hget.
  { intros j Hj. destruct (get_in_range smoothed j) as [sj Hsj]; [lia |].
    exists sj. split; [done |]. by apply get_smoothed in Hsj as (? & ? & _ & _ & ->). }
  exists k, p. split_and!; [lia | lia | done | done | done | |].
  - intros Hty j Hj Hne. destruct (Hget j Hj) as (sj & Hsj & <-). by eapply Hhigh.
  - intros Hty j Hj Hne. destruct (Hget j Hj) as (sj & Hsj & <-). by eapply Hlow.
Qed.

(** X2. A points list with fewer than 13 elements has no index with 6
    neighbours on each side: findExtremes returns the empty list. *)
Theorem findExtremes_no_interior points :
  (length points < 13)%nat → findExtremes points = Some [].
Proof.
  intros Hlen. unfold findExtremes. case_bool_decide; [done |].
  rewrite smoothData_Some. cbn [mbind option_bind].
  unfold scanCandidates. rewrite length_imap, range_empty by lia. done.
Qed.

(** X3. The filter loop of findExtremes keeps a subsequence of the
    candidates, in their order, and keeps at least one entry whenever
    there is a candidate. *)
Theorem filterCandidates_subsequence candidates :
  filterCandidates candidates `sublist_of` candidates
  ∧ (filterCandidates candidates = [] ↔ candidates = []).
Proof.
  split; [apply filterCandidates_sublist_of |]. split.
  - destruct candidates as [|c cs]; [done |]. intros Hnil.
    by apply filterCandidates_nonempty in Hnil.
  - by intros ->.
Qed.

End DetectorExtras.

Lemma findExtremes_provenance_witness :
  ∃ (i : nat) p,
    6 ≤ Z.of_nat i < Z.of_nat (length pathologicalSeries) - 6
    ∧ pathologicalSeries !! i = Some p
    ∧ pt_time p = 1735761600000
    ∧ smoothedHeight pathologicalSeries (Z.of_nat i) = 0.9375%float.
Proof.
  assert (findExtremes pathologicalSeries
          = Some [mkExtreme 1735704000000 1%float low;
                  mkExtreme 1735761600000 0.9375%float high]) as Hrun
    by (vm_compute; reflexivity).
  destruct (findExtremes_provenance pathologicalSeries _
              (mkExtreme 1735761600000 0.9375%float high) Hrun)
    as (i & p & Hi & Hp & Ht & Hh & _); [by right; left |].
  exists i, p. exact (conj Hi (conj Hp (conj (eq_sym Ht) (eq_sym Hh)))).
Defined.

Lemma findExtremes_no_interior_witness :
  (length (take 12 pathologicalSeries) < 13)%nat
  ∧ findExtremes (take 12 pathologicalSeries) = Some [].
Proof.
  split; [vm_compute; lia | apply findExtremes_no_interior; vm_compute; lia].
Defined.

(** ** The risk classifier on the detector's output, and on reordered input *)

Section ClassifierExtras.
Context {num : Type} `{JsNumber num}.
Implicit Types (l found : list (TideExtreme num)).

Lemma adjacent_cons_inv {A} (x : A) (l : list A) (a b : A) :
  adjacent (x :: l) a b → (a = x ∧ head l = Some b) ∨ adjacent l a b.
Proof.
  intros ([|i] & Ha & Hb); simpl in *.
  - left. split; [congruence | by rewrite head_lookup].
  - right. by exists i.
Qed.

Lemma adjacent_cons_tail {A} (x : A) (l : list A) (a b : A) :
  adjacent l a b → adjacent (x :: l) a b.
Proof. intros (i & Ha & Hb). by exists (S i). Qed.

Lemma adjacent_cons_head {A} (x y : A) (l : list A) : adjacent (x :: y :: l) x y.
Proof. by exists 0%nat. Qed.

(** A list whose consecutive times do not decrease is left as it is. *)
Lemma sortByTime_id l :
  (∀ a b, adjacent l a b → time a ≤ time b) → sortByTime l = l.
Proof.
  induction l as [|x l IH]; intros Hadj; simpl; [done |].
  rewrite IH by (intros a b Hab; by apply Hadj, adjacent_cons_tail).
  destruct l as [|y l]; simpl; [done |].
  rewrite bool_decide_eq_true_2; [done |]. apply Hadj, adjacent_cons_head.
Qed.

(** Without a pair closer than 4 hours in the sorted list, only the
    height decides. *)
Lemma isDangerousTide_no_swing (h : num) l :
  (∀ a b, adjacent (sortByTime l) a b → 14400000 ≤ time b - time a) →
  isDangerousTide h l = Some (ltb (decimal 85 2) h).
Proof.
  intros Hgap. unfold isDangerousTide, highTideThreshold.
  destruct (ltb (decimal 85 2) h) eqn:Hh; [done |].
  case_bool_decide; [| done].
  destruct (swing_loop (sortByTime l) 1 (Z.of_nat (length (sortByTime l)) - 1) false)
    as (b & -> & Hb); [lia | lia |].
  f_equal. destruct b; [| done]. exfalso.
  destruct (proj1 Hb eq_refl) as [? | (i & p & c & _ & Hp & Hc & Hswing)]; [done |].
  unfold rapidSwing in Hswing. apply andb_prop in Hswing as [_ Ht%bool_decide_eq_true].
  assert (14400000 ≤ time c - time p) by (apply Hgap; by exists i). lia.
Qed.

(** X4. On the extrema that findExtremes returns, the rapid-swing rule of
    isDangerousTide never fires: the classifier returns exactly whether
    height > 0.85. *)
Theorem isDangerousTide_findExtremes (points : list (TidePoint num)) (h : num) :
  ∃ found, findExtremes points = Some found
    ∧ isDangerousTide h found = Some (ltb (decimal 85 2) h).
Proof.
  destruct (findExtremes_total points) as [found Hf]. exists found. split; [done |].
  pose proof (findExtremes_inv points found Hf) as Hinv.
  assert (∀ a b, adjacent found a b → 14400000 ≤ time b - time a) as Hgap.
  { intros a b [Ht _]%Hinv. exact Ht. }
  apply isDangerousTide_no_swing. rewrite sortByTime_id; [done |].
  intros a b Hab%Hgap. lia.
Qed.

Lemma sortByTime_perm l1 l2 :
  l1 ≡ₚ l2 → NoDup (time <$> l1) → sortByTime l1 = sortByTime l2.
Proof.
  intros Hperm Hnd.
  apply (StronglySorted_unique_strong (λ a b : TideExtreme num, time a ≤ time b));
    [| apply sortByTime_sorted | apply sortByTime_sorted
     | by rewrite !sortByTime_Permutation].
  intros x1 x2 Hx1 Hx2 Hle1 Hle2.
  rewrite sortByTime_Permutation in Hx1. rewrite sortByTime_Permutation, <- Hperm in Hx2.
  assert (time x1 = time x2) as Heq by lia.
  apply list_elem_of_lookup in Hx1 as [i Hi]. apply list_elem_of_lookup in Hx2 as [j Hj].
  assert (i = j) as ->.
  { eapply NoDup_lookup; [exact Hnd | |]; rewrite list_lookup_fmap.
    - by rewrite Hi.
    - rewrite Hj. simpl. by rewrite Heq. }
  congruence.
Qed.

(** X5. When no two extrema have the same time, isDangerousTide does not
    depend on the order in which the extrema are given. *)
Theorem isDangerousTide_permutation (h : num) l1 l2 :
  l1 ≡ₚ l2 → NoDup (time <$> l1) → isDangerousTide h l1 = isDangerousTide h l2.
Proof.
  intros Hperm Hnd. unfold isDangerousTide.
  rewrite (sortByTime_perm l1 l2 Hperm Hnd), (Permutation_length Hperm). done.
Qed.

End ClassifierExtras.

Lemma isDangerousTide_permutation_witness :
  let a := mkExtreme 1735689600000 (decimal 3 1 : float) low in
  let b := mkExtreme 1735696800000 (decimal 8 1 : float) high in
  [b; a] ≡ₚ [a; b]
  ∧ NoDup (time <$> [b; a])
  ∧ isDangerousTide (decimal 5 1) [b; a] = isDangerousTide (decimal 5 1) [a; b].
Proof.
  intros a b.
  assert ([b; a] ≡ₚ [a; b]) as Hperm by apply Permutation_swap.
  assert (NoDup (time <$> [b; a])) as Hnd
    by (repeat constructor; rewrite ?elem_of_cons, ?elem_of_nil; simpl; intuition lia).
  split; [exact Hperm |]. split; [exact Hnd |].
  exact (isDangerousTide_permutation (decimal 5 1) [b; a] [a; b] Hperm Hnd).
Defined.

(** ** SafetyWarning: the next dangerous period *)

Section SafetyWarning.
Context {num : Type} `{JsNumber num}.
Implicit Types (extremes : list (TideExtreme num)) (rt : Runtime num).

Lemma StronglySorted_filter_time (P : TideExtreme num → Prop) `{!∀ e, Decision (P e)}
    (l : list (TideExtreme num)) :
  StronglySorted (λ a b, time a ≤ time b) l →
  StronglySorted (λ a b, time a ≤ time b) (filter P l).
Proof.
  induction 1 as [|x l Hl IH Hx]; [constructor |].
  rewrite filter_cons. case_decide; [| done].
  constructor; [done |]. rewrite Forall_forall in Hx |- *.
  intros y [_ Hy]%list_elem_of_filter. by apply Hx.
Qed.

(** X6. getNextDangerousPeriod returns null exactly when no extreme is a
    High above 0.85 m later than now; otherwise it returns the period from
    1.5 hours before to 1.5 hours after an earliest such extreme, with its
    height. It never raises. *)
Theorem getNextDangerousPeriod_spec rt extremes :
  ∃ r, getNextDangerousPeriod rt extremes = Some r
    ∧ match r with
      | None => ∀ e, e ∈ extremes → ¬ dangerousHigh rt e
      | Some period =>
        ∃ e, e ∈ extremes ∧ dangerousHigh rt e
          ∧ period = mkPeriod (newDate (time e - 5400000))
                              (newDate (time e + 5400000)) (height e)
          ∧ ∀ e', e' ∈ extremes → dangerousHigh rt e' → time e ≤ time e'
      end.
Proof.
  unfold getNextDangerousPeriod.
  set (dangerousHighTides := filter _ (sortByTime extremes)).
  assert (∀ e, e ∈ dangerousHighTides ↔ dangerousHigh rt e ∧ e ∈ extremes) as Hin.
  { intros e. unfold dangerousHighTides.
    by rewrite list_elem_of_filter, sortByTime_Permutation. }
  assert (StronglySorted (λ a b, time a ≤ time b) dangerousHighTides) as Hsorted
    by apply StronglySorted_filter_time, sortByTime_sorted.
  destruct dangerousHighTides as [|e rest] eqn:Hd; simpl.
  - exists None. split; [done |]. intros e He Hq.
    assert (e ∈ []) as Hnil by (by apply Hin). by apply elem_of_nil in Hnil.
  - exists (Some (mkPeriod (newDate (time e - 5400000))
                     (newDate (time e + 5400000)) (height e))).
    split; [done |]. exists e.
    destruct (proj1 (Hin e)) as [Hq He]; [by left |].
    split_and!; [done | done | done |].
    intros e' He' Hq'. assert (e' ∈ e :: rest) as Hmem by (by apply Hin).
    apply StronglySorted_inv in Hsorted as [_ Hall].
    apply elem_of_cons in Hmem as [-> | Hmem]; [lia |].
    rewrite Forall_forall in Hall. by apply Hall.
Qed.

End SafetyWarning.

(** ** TideTable and FridayRecommendations: the grouping by day *)

Lemma groupStep_lookup {A B} (key : A → string) (row : A → B)
    (acc : gmap string (list B)) (x : A) (k : string) :
  groupStep key row acc x !! k
  = if decide (key x = k) then Some (default [] (acc !! k) ++ [row x]) else acc !! k.
Proof.
  unfold groupStep. case_decide as Hk.
  - subst k. rewrite lookup_insert_eq. f_equal. f_equal.
    destruct (acc !! key x) eqn:Hacc; [by rewrite Hacc |]. by rewrite lookup_insert_eq.
  - rewrite lookup_insert_ne by done.
    destruct (acc !! key x); [done |]. by rewrite lookup_insert_ne.
Qed.

Lemma groupFold_lookup {A B} (key : A → string) (row : A → B)
    (l : list A) (acc : gmap string (list B)) (k : string) :
  fold_left (groupStep key row) l acc !! k
  = match acc !! k, filter (λ x, key x = k) l with
    | None, [] => None
    | o, xs => Some (default [] o ++ (row <$> xs))
    end.
Proof.
  revert acc. induction l as [|x l IH]; intros acc; cbn [fold_left].
  - rewrite filter_nil. destruct (acc !! k); simpl; [by rewrite app_nil_r | done].
  - rewrite IH, groupStep_lookup, filter_cons. case_decide as Hk.
    + destruct (filter _ l) as [|y ys]; simpl;
        destruct (acc !! k); simpl; by rewrite <- ?app_assoc.
    + done.
Qed.

Lemma groupFold_empty {A B} (key : A → string) (row : A → B) (l : list A) (k : string) :
  fold_left (groupStep key row) l ∅ !! k
  = match filter (λ x, key x = k) l with
    | [] => None
    | xs => Some (row <$> xs)
    end.
Proof. rewrite groupFold_lookup, lookup_empty. by destruct (filter _ l). Qed.

Section Grouping.
Context {num : Type} `{JsNumber num}.
Implicit Types (extremes : list (TideExtreme num)) (rt : Runtime num) (lc : Locale).

(** X7. The grouping of TideTable loses and invents nothing: under each
    date string it holds exactly the extremes with that date string, in
    the order of the input, each with its time string and date; a date
    string of no extreme has no group, so no group is empty and the
    header test on the first entry of a group never raises. *)
Theorem groupedByDay_spec rt lc extremes (dateString : string) :
  (groupedByDay lc extremes !! dateString = None
   ↔ ∀ e, e ∈ extremes → dayKey lc e ≠ dateString)
  ∧ ∀ dayExtremes, groupedByDay lc extremes !! dateString = Some dayExtremes →
      dayExtremes = tableRow lc <$> filter (λ e, dayKey lc e = dateString) extremes
      ∧ dayExtremes ≠ []
      ∧ ∃ first, head (filter (λ e, dayKey lc e = dateString) extremes) = Some first
          ∧ dayIsFriday rt dayExtremes = Some (isFriday rt first).
Proof.
  change (groupedByDay lc extremes)
    with (fold_left (groupStep (dayKey lc) (tableRow lc)) extremes ∅).
  rewrite groupFold_empty.
  destruct (filter (λ e, dayKey lc e = dateString) extremes) as [|x xs] eqn:Hf.
  - split; [| done]. split; [| done]. intros _ e He Hk.
    assert (e ∈ filter (λ e, dayKey lc e = dateString) extremes) as Hin
      by (by apply list_elem_of_filter).
    rewrite Hf in Hin. by apply elem_of_nil in Hin.
  - split.
    + split; [done |]. intros Hnone.
      assert (x ∈ filter (λ e, dayKey lc e = dateString) extremes) as Hin
        by (rewrite Hf; left).
      apply list_elem_of_filter in Hin as [Hk Hin]. by destruct (Hnone x Hin).
    + intros dayExtremes [= <-]. split_and!; [done | done |].
      exists x. split; [done |]. reflexivity.
Qed.

Lemma groupedByDate_empty_iff lc (recommendations : list Recommendation) :
  size (groupedByDate lc recommendations) = 0%nat ↔ recommendations = [].
Proof.
  rewrite map_size_empty_iff, map_empty.
  change (groupedByDate lc recommendations)
    with (fold_left (groupStep (recKey lc) (recRow lc)) recommendations ∅).
  split.
  - intros Hnone. destruct recommendations as [|r rs]; [done |]. exfalso.
    specialize (Hnone (recKey lc r)). rewrite groupFold_empty, filter_cons in Hnone.
    by rewrite decide_True in Hnone by done.
  - intros -> k. done.
Qed.

(** X8. FridayRecommendations reports Fridays (rather than 'No upcoming
    Fridays in the current data range') exactly when getBestFridayVisitTimes
    gives a recommendation: when some Low extreme on a Friday has its hour
    of day in 6..18, or the hour of day one hour later in 7..17. A Friday
    with only High extrema, or with Lows at night only, is reported as no
    Friday. *)
Theorem hasFridays_spec rt lc extremes :
  ∃ b, hasFridays rt lc extremes = Some b
    ∧ (b = true ↔
       ∃ e, e ∈ extremes ∧ type e = low ∧ isFriday rt e = true
            ∧ (hourWithin rt (newDate (time e)) 6 18
               ∨ hourWithin rt (newDate (time e + 3600000)) 7 17)).
Proof.
  unfold hasFridays. rewrite getBestFridayVisitTimes_Some. cbn [mbind option_bind].
  eexists. split; [done |].
  set (recs := _ ≫= recommendationsOf rt).
  rewrite bool_decide_eq_true.
  assert (0 < Z.of_nat (size (groupedByDate lc recs)) ↔ recs ≠ []) as ->.
  { pose proof (groupedByDate_empty_iff lc recs) as Hsize.
    split; [intros Hpos Hnil; apply Hsize in Hnil; lia |].
    intros Hne. destruct (decide (size (groupedByDate lc recs) = 0%nat)) as [Hz|]; [| lia].
    by apply Hsize in Hz. }
  split.
  - intros Hne. destruct recs as [|r rs] eqn:Hrecs; [done |].
    assert (r ∈ recs) as Hr by (rewrite Hrecs; left).
    apply elem_of_recommendations in Hr as (e & He & Hfri & Hr).
    apply elem_of_recommendationsOf in Hr as [Hlow Hcase].
    exists e. split_and!; [done | done | done |].
    destruct Hcase as [[? _] | [? _]]; [by left | by right].
  - intros (e & He & Hlow & Hfri & Hcase) Hnil.
    assert (∃ r, r ∈ recs) as [r Hr].
    { destruct Hcase as [Hh | Hh]; eexists; apply elem_of_recommendations;
        exists e; (split_and!; [done | done |]); apply elem_of_recommendationsOf;
        (split; [done |]); [left | right]; split; done. }
    rewrite Hnil in Hr. by apply elem_of_nil in Hr.
Qed.

End Grouping.

(** ** The sampled data: extremes, chart markers and the effect of App *)

Lemma findIndexFrom_first {A} (P : A → bool) (l : list A) (i0 : Z) (k : nat) (x : A) :
  l !! k = Some x → P x = true →
  (∀ (j : nat) y, (j < k)%nat → l !! j = Some y → P y = false) →
  findIndexFrom P l i0 = i0 + Z.of_nat k.
Proof.
  revert i0 k. induction l as [|y l IH]; intros i0 k Hk Hx Hbefore; [done |].
  destruct k as [|k]; simpl in *.
  - injection Hk as ->. rewrite Hx. lia.
  - rewrite (Hbefore 0%nat y) by (done || lia).
    rewrite (IH (i0 + 1) k); [lia | done | done |].
    intros j z Hj Hz. apply (Hbefore (S j)); [lia | done].
Qed.

Lemma gaps_span {num} (l : list (TideExtreme num)) (g : Z) :
  (∀ a b, adjacent l a b → g ≤ time b - time a) →
  ∀ first final, head l = Some first → last l = Some final →
    (Z.of_nat (length l) - 1) * g ≤ time final - time first.
Proof.
  induction l as [|x l IH]; intros Hadj first final Hfirst Hfinal; [done |].
  injection Hfirst as <-. destruct l as [|y l].
  - injection Hfinal as <-. simpl. lia.
  - assert (g ≤ time y - time x) by apply Hadj, adjacent_cons_head.
    assert ((Z.of_nat (length (y :: l)) - 1) * g ≤ time final - time y) as Hrest.
    { apply IH; [| done | done]. intros a b Hab. by apply Hadj, adjacent_cons_tail. }
    cbn [length] in *. lia.
Qed.

Section SampledData.
Context {num : Type} `{JsNumber num} `{JsMath num}.
Implicit Types (rt : Runtime num) (cs : list (HarmonicConstituent num)).

Lemma sampled_times rt cs days :
  0 ≤ days →
  Z.of_nat (length (samplePoints rt cs (Date_now rt + days * 86400000) (Date_now rt) 0))
  = days * 48 + 1
  ∧ ∀ (i : nat) p,
      samplePoints rt cs (Date_now rt + days * 86400000) (Date_now rt) 0 !! i = Some p →
      pt_time p = Date_now rt + Z.of_nat i * 1800000.
Proof.
  intros Hdays. set (pts := samplePoints _ _ _ _ _).
  assert (pt_time <$> pts = sampleTimes (Date_now rt) (days * 48 + 1)) as Htimes.
  { replace (days * 48 + 1) with (Z.of_nat (Z.to_nat (days * 48 + 1))) by lia.
    apply samplePoints_times; unfold samplingInterval; lia. }
  assert (Z.of_nat (length pts) = days * 48 + 1) as Hlen.
  { rewrite <- (length_fmap pt_time), Htimes, sampleTimes_length. lia. }
  split; [done |]. intros i p Hp. apply lookup_lt_Some in Hp as Hi.
  assert ((pt_time <$> pts) !! i = Some (pt_time p)) as Hq
    by (by rewrite list_lookup_fmap, Hp).
  rewrite Htimes, sampleTimes_lookup in Hq by lia. congruence.
Qed.

Lemma findExtremes_on_sample (pts : list (TidePoint num)) found (e : TideExtreme num) :
  findExtremes pts = Some found → e ∈ found →
  ∃ (i : nat) p, 6 ≤ Z.of_nat i < Z.of_nat (length pts) - 6
    ∧ pts !! i = Some p ∧ time e = pt_time p
    ∧ height e = smoothedHeight pts (Z.of_nat i).
Proof.
  unfold findExtremes. case_bool_decide as Hlen.
  { intros [= <-] He. by apply elem_of_nil in He. }
  rewrite smoothData_Some. cbn [mbind option_bind].
  intros (candidates & Hscan & [= <-])%bind_Some He.
  assert (e ∈ candidates) as Hc
    by (eapply elem_of_sublist; [exact He | apply filterCandidates_sublist_of]).
  destruct (scanCandidates_candidateAt _ _ _ _ Hscan Hc)
    as (i & Hi & current & Hcur & Ht & Hh & _).
  rewrite length_imap in Hi.
  apply get_smoothed in Hcur as (k & p & -> & Hp & ->).
  exists k, p. split; [lia |]. split; [done |]. split; [exact Ht | exact Hh].
Qed.

Lemma samplePoints_heights rt cs endTime t (k i : nat) p :
  samplePoints rt cs endTime t k !! i = Some p →
  pt_height p = calculateTideHeight rt (pt_time p) cs (Math_random rt (k + i)).
Proof.
  remember (Z.to_nat (endTime - t + 1)) as n eqn:Hn.
  revert t k i Hn. induction (lt_wf n) as [n _ IH]. intros t k i Hn.
  destruct (decide (t ≤ endTime)) as [Hle | Hgt].
  - rewrite samplePoints_step by done. destruct i as [|i]; simpl.
    + intros [= <-]. simpl. by rewrite Nat.add_0_r.
    + intros Hp. replace (k + S i)%nat with (S k + i)%nat by lia.
      eapply (IH (Z.to_nat (endTime - (t + samplingInterval) + 1)));
        [unfold samplingInterval; lia | done | exact Hp].
  - rewrite samplePoints_stop by lia. done.
Qed.

(** X16. Each point getTideData returns has the height that
    calculateTideHeight gives at its own time with its own call of
    Math.random: the i-th point uses the i-th random draw. *)
Theorem getTideData_heights rt (location : LocationConfig num) days
    (constituents : option (list (HarmonicConstituent num))) :
  ∃ data, getTideData rt location days constituents = Some data
    ∧ ∀ (i : nat) p, points data !! i = Some p →
        pt_height p
        = calculateTideHeight rt (pt_time p)
            (default getDefaultConstituents constituents) (Math_random rt i).
Proof.
  destruct (getTideData_Some rt location days constituents) as (found & Hf & ->).
  eexists. split; [done |]. cbn [points]. intros i p Hp.
  by apply samplePoints_heights in Hp.
Qed.

(** X9. In the data getTideData returns for a non-negative number of
    days, every extreme lies on a sample at least 3 hours inside the
    window, and there are at most 6 extremes per day. *)
Theorem getTideData_extremes_bound rt (location : LocationConfig num) days
    (constituents : option (list (HarmonicConstituent num))) :
  0 ≤ days →
  ∃ data, getTideData rt location days constituents = Some data
    ∧ Z.of_nat (length (extremes data)) ≤ 6 * days
    ∧ ∀ e, e ∈ extremes data →
        Date_now rt + 10800000 ≤ time e ≤ Date_now rt + days * 86400000 - 10800000
        ∧ ∃ p, p ∈ points data ∧ pt_time p = time e.
Proof.
  intros Hdays.
  destruct (getTideData_Some rt location days constituents) as (found & Hf & ->).
  eexists. split; [done |]. cbn [points extremes].
  destruct (sampled_times rt (default getDefaultConstituents constituents) days Hdays)
    as [Hlen Hat].
  set (pts := samplePoints _ _ _ _ _) in *.
  assert (∀ e, e ∈ found →
            Date_now rt + 10800000 ≤ time e ≤ Date_now rt + days * 86400000 - 10800000
            ∧ ∃ p, p ∈ pts ∧ pt_time p = time e) as Hin.
  { intros e He. destruct (findExtremes_on_sample pts found e Hf He) as (i & p & Hi & Hp & Ht & _).
    rewrite Ht, (Hat i p Hp). split; [lia |].
    exists p. split; [by eapply list_elem_of_lookup_2 | by apply Hat]. }
  split; [| done].
  destruct found as [|x rest] eqn:Hfound; [simpl; lia |]. rewrite <- Hfound in *.
  destruct (last found) as [final|] eqn:Hfinal;
    [| rewrite Hfound in Hfinal; by apply last_None in Hfinal].
  assert (x ∈ found) as Hx by (rewrite Hfound; left).
  assert (final ∈ found) as Hfin by (by apply last_Some_elem_of).
  destruct (Hin x Hx) as [Hxt _]. destruct (Hin final Hfin) as [Hft _].
  assert ((Z.of_nat (length found) - 1) * 14400000 ≤ time final - time x) as Hspan.
  { apply gaps_span; [| by rewrite Hfound | done].
    intros a b [Ht _]%(findExtremes_inv pts found Hf). exact Ht. }
  lia.
Qed.

(** X10. In the data getTideData returns for a non-negative number of
    days, the chart finds for every extreme the index of a sample (never
    -1, so no marker is skipped), and that sample is the one with the
    time of the extreme. *)
Theorem pointIndex_sampled rt (location : LocationConfig num) days
    (constituents : option (list (HarmonicConstituent num))) :
  0 ≤ days →
  ∃ data, getTideData rt location days constituents = Some data
    ∧ ∀ e, e ∈ extremes data →
        ∃ (i : nat) p, pointIndex (points data) e = Z.of_nat i
          ∧ points data !! i = Some p ∧ pt_time p = time e.
Proof.
  intros Hdays.
  destruct (getTideData_Some rt location days constituents) as (found & Hf & ->).
  eexists. split; [done |]. cbn [points extremes].
  destruct (sampled_times rt (default getDefaultConstituents constituents) days Hdays)
    as [Hlen Hat].
  set (pts := samplePoints _ _ _ _ _) in *.
  intros e He. destruct (findExtremes_on_sample pts found e Hf He) as (i & p & Hi & Hp & Ht & _).
  exists i, p. split; [| done]. unfold pointIndex, findIndex.
  rewrite (findIndexFrom_first _ pts 0 i p Hp); [lia | |].
  - rewrite bool_decide_eq_true. lia.
  - intros j q Hj Hq. rewrite bool_decide_eq_false.
    rewrite Ht, (Hat i p Hp), (Hat j q Hq). lia.
Qed.

(** X11. The effect of App always ends with loading = false. For a
    non-negative number of days it stores the sampled points and their
    extremes, the height of the first point as the current height, and as
    the danger flag exactly whether that height is > 0.85 (the rapid-swing
    rule cannot fire on detected extremes). For a negative number of days
    it stores no points and no extremes, leaves the danger flag and the
    current height as they were, and the content is not shown. *)
Theorem loadEffect_spec rt (currentLocation : LocationConfig num) days (st : AppState num) :
  loading (loadEffect rt currentLocation days st) = false
  ∧ Some (tideExtremes (loadEffect rt currentLocation days st))
    = findExtremes (tidePoints (loadEffect rt currentLocation days st))
  ∧ (0 ≤ days →
     ∃ current, head (tidePoints (loadEffect rt currentLocation days st)) = Some current
       ∧ pt_time current = Date_now rt
       ∧ currentHeight (loadEffect rt currentLocation days st) = pt_height current
       ∧ isDangerous (loadEffect rt currentLocation days st)
         = ltb (decimal 85 2) (pt_height current))
  ∧ (days < 0 →
     tidePoints (loadEffect rt currentLocation days st) = []
     ∧ tideExtremes (loadEffect rt currentLocation days st) = []
     ∧ isDangerous (loadEffect rt currentLocation days st) = isDangerous st
     ∧ currentHeight (loadEffect rt currentLocation days st) = currentHeight st
     ∧ contentShown (loadEffect rt currentLocation days st) = false).
Proof.
  unfold loadEffect, tryLoad.
  destruct (getTideData_Some rt currentLocation days None) as (found & Hf & ->).
  cbn [points extremes]. simpl (default _ None) in *.
  set (pts := samplePoints _ _ _ _ _) in *.
  assert (∀ h, isDangerousTide h found = Some (ltb (decimal 85 2) h)) as Hdanger.
  { intros h. apply isDangerousTide_no_swing. rewrite sortByTime_id.
    - intros a b [Ht _]%(findExtremes_inv pts found Hf). exact Ht.
    - intros a b [Ht _]%(findExtremes_inv pts found Hf).
      unfold minTimeBetweenExtremes in Ht. lia. }
  destruct pts as [|p0 rest] eqn:Hpts.
  - (* no point: the loop did not run *)
    simpl. split_and!; [done | by rewrite <- Hf | | ].
    + intros Hdays. exfalso.
      destruct (sampled_times rt getDefaultConstituents days Hdays) as [Hlen _].
      fold pts in Hlen. rewrite Hpts in Hlen. simpl in Hlen. lia.
    + intros _. unfold findExtremes in Hf.
      rewrite bool_decide_eq_true_2 in Hf by (simpl; lia). injection Hf as <-. done.
  - rewrite bool_decide_eq_true_2 by (simpl; lia).
    change (get (p0 :: rest) 0) with (Some p0). cbn match. rewrite Hdanger. simpl.
    split_and!; [done | by rewrite <- Hf | | ].
    + intros Hdays. exists p0. split_and!; [done | | done | done].
      destruct (sampled_times rt getDefaultConstituents days Hdays) as [_ Hat].
      fold pts in Hat. rewrite Hpts in Hat. rewrite (Hat 0%nat p0 eq_refl). lia.
    + intros Hneg. exfalso.
      assert (pts = []) as Hnil by (unfold pts; apply samplePoints_stop; lia).
      congruence.
Qed.

End SampledData.

(** ** The recommendations fall on Fridays *)

Section RecommendationExtras.
Context {num : Type} `{JsNumber num}.
Implicit Types (extremes : list (TideExtreme num)) (rt : Runtime num).

Lemma isFriday_getDay rt (e : TideExtreme num) :
  isFriday rt e = true → getDay rt (newDate (time e)) = Some 5.
Proof.
  unfold isFriday. destruct (getDay rt (newDate (time e))) as [d|]; simpl; [| done].
  by intros ->%bool_decide_eq_true.
Qed.

(** X12. In a time zone of constant offset, every recommendation of
    getBestFridayVisitTimes is at an instant that falls on a Friday, the
    one-hour-later swimming times included. *)
Theorem getBestFridayVisitTimes_on_friday rt extremes (offset : Z) recs r :
  (∀ t, LocalTZA rt t = offset) →
  getBestFridayVisitTimes rt extremes = Some recs → r ∈ recs →
  getDay rt (rec_time r) = Some 5.
Proof.
  intros Hoff. rewrite getBestFridayVisitTimes_Some. intros [= <-] Hr.
  apply elem_of_recommendations in Hr as (e & _ & Hfri%isFriday_getDay & Hr).
  apply elem_of_recommendationsOf in Hr as [_ [[_ ->] | [(h & Hh & Hrange) ->]]];
    cbn [rec_time]; [done |].
  revert Hfri Hh. unfold getDay, getHours, newDate.
  case_bool_decide; [| done]. case_bool_decide; [| done]. cbn [mbind option_bind].
  unfold LocalTime, msPerDay, msPerHour. rewrite !Hoff.
  intros [= Hd] [= Hh]. f_equal.
  replace (time e + 3600000 + offset) with (time e + offset + 3600000) in * by lia.
  revert Hd Hh Hrange. generalize (time e + offset). clear. intros x Hd Hh Hrange.
  Z.div_mod_to_equations. lia.
Qed.

End RecommendationExtras.

Lemma getBestFridayVisitTimes_on_friday_witness :
  (∀ t, LocalTZA utc t = 0)
  ∧ getBestFridayVisitTimes utc [mkExtreme 1735891200000 0.25%float low]
    = Some [mkRec (Some 1735891200000) reason_beach;
            mkRec (Some 1735894800000) reason_swimming]
  ∧ getDay utc (Some 1735894800000) = Some 5.
Proof.
  assert (getBestFridayVisitTimes utc [mkExtreme 1735891200000 0.25%float low]
          = Some [mkRec (Some 1735891200000) reason_beach;
                  mkRec (Some 1735894800000) reason_swimming]) as Hrun
    by (vm_compute; reflexivity).
  split; [reflexivity |]. split; [exact Hrun |].
  apply (getBestFridayVisitTimes_on_friday utc _ 0 _
           (mkRec (Some 1735894800000) reason_swimming) (λ _, eq_refl) Hrun).
  right. left.
Defined.

(** In binary64 a constant series of 0.1 m is not left unchanged:
    (0.1 + 0.1 + 0.1) / 3 rounds to the next number above 0.1. *)
Example smoothData_constant_binary64 :
  smoothData [mkPoint 0 (decimal 1 1 : float); mkPoint 1800000 (decimal 1 1);
              mkPoint 3600000 (decimal 1 1)] 3 ≫= (.!! 1%nat)
  = Some (mkPoint 1800000 (PrimFloat.next_up (decimal 1 1))).
Proof. vm_compute. reflexivity. Qed.

(** ** Instances of the further properties on concrete inputs *)

Lemma getTideData_extremes_bound_witness :
  0 ≤ 7
  ∧ ∃ data, getTideData realRun somewhere 7 None = Some data
      ∧ Z.of_nat (length (extremes data)) ≤ 42.
Proof.
  split; [lia |].
  destruct (getTideData_extremes_bound realRun somewhere 7 None) as (data & Hd & Hn & _);
    [lia |].
  exists data. split; [exact Hd | exact Hn].
Defined.

Lemma pointIndex_sampled_witness :
  0 ≤ 7
  ∧ ∃ data, getTideData realRun somewhere 7 None = Some data
      ∧ ∀ e, e ∈ extremes data → 0 ≤ pointIndex (points data) e.
Proof.
  split; [lia |].
  destruct (pointIndex_sampled realRun somewhere 7 None) as (data & Hd & Hidx); [lia |].
  exists data. split; [exact Hd |]. intros e He.
  destruct (Hidx e He) as (i & p & -> & _). lia.
Defined.
